(** * BikeWatch: the temporal traffic aggregation engine of [+page.svelte]

    A shallow embedding of the script block of [src/routes/+page.svelte]:
    the minute-of-day bucketing done while the trip log is loaded, the
    circular one-hour window of [filterByMinute], the per-station counts made
    with [d3.rollup], and the join of the counts onto the station list.

    Map rendering ([initMap], [getCoords]) and the radius scales are
    presentation code and are left out. *)

From Stdlib Require Import ZArith Lia.
From stdpp Require Import base list gmap strings.

(** ** JavaScript values *)

(** The numbers the engine computes with are integer-valued doubles far
    below 2^53, or [NaN] (what the getters of an invalid [Date] return). *)
Inductive number : Type :=
  | NaN
  | Int (z : Z).

#[global] Instance number_eq_dec : EqDecision number.
Proof. solve_decision. Defined.

(** [Number.MAX_SAFE_INTEGER]: up to it, sums and differences of integers
    are exact in double arithmetic. *)
Definition MAX_SAFE_INTEGER : Z := 2 ^ 53 - 1.

Definition num_mul (a b : number) : number :=
  match a, b with
  | Int x, Int y => Int (x * y)
  | _, _ => NaN
  end.

Definition num_add (a b : number) : number :=
  match a, b with
  | Int x, Int y => Int (x + y)
  | _, _ => NaN
  end.

(** A [Date] object holds a time value in milliseconds since the epoch, or
    is an Invalid Date. *)
Inductive Date : Type :=
  | InvalidDate
  | TimeValue (t : Z).

#[global] Instance Date_eq_dec : EqDecision Date.
Proof. solve_decision. Defined.

Definition msPerMinute : Z := 60000.
Definition msPerHour : Z := 3600000.

(** ECMAScript's [HourFromTime] and [MinFromTime]: floor division and a
    non-negative modulo, which is what [Z.div] and [Z.modulo] are for a
    positive divisor. *)
Definition HourFromTime (t : Z) : Z := ((t / msPerHour) mod 24)%Z.
Definition MinFromTime (t : Z) : Z := ((t / msPerMinute) mod 60)%Z.

(** The only exception the engine can raise is the [TypeError] of calling
    [push] on [undefined]. *)
Inductive error : Type :=
  | TypeError.

Inductive completion (A : Type) : Type :=
  | Normal (a : A)
  | Throw (e : error).
Arguments Normal {A} a.
Arguments Throw {A} e.

(** ** Arrays *)

(** [Array.prototype.slice]: a negative index counts from the end, both
    indices are clamped to [0, len], and an empty array results when the
    start is not before the end. *)
Definition relativeIndex (len i : Z) : Z :=
  if (i <? 0)%Z then Z.max (len + i) 0 else Z.min i len.

Definition slice {A : Type} (arr : list A) (start : Z) (stop : option Z) : list A :=
  let len := Z.of_nat (length arr) in
  let k := relativeIndex len start in
  let final := match stop with
               | None => len
               | Some e => relativeIndex len e
               end in
  take (Z.to_nat (final - k)) (drop (Z.to_nat k) arr).

(** [Array.prototype.flat()] with the default depth 1, on an array of
    arrays. *)
Definition flat {A : Type} (arr : list (list A)) : list A := concat arr.

(** [arr[i]] for a number [i]: [undefined] (here [None]) unless [i] is an
    integer index below the length. *)
Definition index {A : Type} (arr : list A) (i : number) : option A :=
  match i with
  | NaN => None
  | Int k => if (0 <=? k)%Z then arr !! Z.to_nat k else None
  end.

(** ** d3.rollup *)

(** [d3.group(values, key)], as d3-array's [nest] builds it: each value is
    pushed onto the group of its key, a new group being created on the first
    value of a key. Only [get] is used on the result, so the insertion order
    of the keys is not kept. *)
Definition d3_group {A : Type} (values : list A) (key : A -> string)
  : gmap string (list A) :=
  foldl (fun groups value =>
           match groups !! key value with
           | Some group => <[key value := group ++ [value]]> groups
           | None => <[key value := [value]]> groups
           end) ∅ values.

(** [d3.rollup(values, reduce, key)]: the groups, each replaced by its
    reduction. *)
Definition d3_rollup {A B : Type} (values : list A) (reduce : list A -> B)
    (key : A -> string) : gmap string B :=
  reduce <$> d3_group values key.

Section Engine.

(** The host's local time zone adjustment, the [Date] constructor on the
    text of a CSV cell, and the type of coordinates (doubles the engine
    never inspects). *)
Context (LocalTZA : Z -> Z) (Date_parse : string -> Date) {coord : Type}.

Definition LocalTime (t : Z) : Z := (t + LocalTZA t)%Z.

Definition getHours (date : Date) : number :=
  match date with
  | InvalidDate => NaN
  | TimeValue t => Int (HourFromTime (LocalTime t))
  end.

Definition getMinutes (date : Date) : number :=
  match date with
  | InvalidDate => NaN
  | TimeValue t => Int (MinFromTime (LocalTime t))
  end.

(** ** Data model *)

(** A row of the trip CSV as [d3.csv] yields it: every cell is text. *)
Record Row : Type := mkRow {
  row_start_station_id : string;
  row_end_station_id : string;
  row_started_at : string;
  row_ended_at : string
}.

(** The same object once the load loop has replaced its two time cells by
    [Date] objects. *)
Record Trip : Type := mkTrip {
  start_station_id : string;
  end_station_id : string;
  started_at : Date;
  ended_at : Date
}.

Record Station : Type := mkStation {
  id : string;
  name : string;
  Lat : coord;
  Long : coord;
  st_arrivals : nat;
  st_departures : nat;
  totalTraffic : nat
}.

(** The component's variables (lines 10-19). *)
Record State : Type := mkState {
  stations : list Station;
  trips : list Trip;
  arrivals : gmap string nat;
  departures : gmap string nat;
  timeFilter : Z;
  departuresByMinute : list (list Trip);
  arrivalsByMinute : list (list Trip)
}.

(** [Array.from({length: 1440}, () => [])]: 1440 separate empty arrays. *)
Definition emptyBuckets : list (list Trip) := replicate 1440 [].

Definition initialState : State :=
  {| stations := [];
     trips := [];
     arrivals := ∅;
     departures := ∅;
     timeFilter := (-1)%Z;
     departuresByMinute := emptyBuckets;
     arrivalsByMinute := emptyBuckets |}.

(** ** minutesSinceMidnight (lines 56-58) *)

Definition minutesSinceMidnight (date : Date) : number :=
  num_add (num_mul (getHours date) (Int 60)) (getMinutes date).

(** ** filterByMinute (lines 60-74)

    [trips] is the component variable the function reads when [minute] is
    the sentinel. JavaScript's [%] takes the sign of the dividend, as
    [Z.rem] does. The two bounds of lines 64-65 are named so that
    statements can refer to them. They are computed here on integers:
    this is what the doubles of the source give as long as
    [|minute| + 1380 <= MAX_SAFE_INTEGER]; beyond that the source's sums
    round, and statements about the window of a given value stay within
    that range. *)
Definition minMinute_of (minute : Z) : Z := Z.rem (minute - 60 + 1440) 1440.
Definition maxMinute_of (minute : Z) : Z := Z.rem (minute + 60) 1440.

Definition filterByMinute (trips : list Trip) (tripsByMinute : list (list Trip))
    (minute : Z) : list Trip :=
  if (minute =? -1)%Z then trips
  else
    let minMinute := minMinute_of minute in
    let maxMinute := maxMinute_of minute in
    if (minMinute >? maxMinute)%Z then
      let beforeMidnight := slice tripsByMinute minMinute None in
      let afterMidnight := slice tripsByMinute 0 (Some (maxMinute + 1)%Z) in
      flat (beforeMidnight ++ afterMidnight)
    else
      flat (slice tripsByMinute minMinute (Some (maxMinute + 1)%Z)).

(** The body has no [throw], and [slice], [concat] and [flat] are total on
    arrays: every call completes normally. *)
Definition filterByMinute_call (trips : list Trip)
    (tripsByMinute : list (list Trip)) (minute : Z) : completion (list Trip) :=
  Normal (filterByMinute trips tripsByMinute minute).

(** ** Statements that read and write the component's variables

    A statement takes the variables to a completion and the variables it
    leaves behind; what was written before an exception stays written. *)
Definition M (A : Type) : Type := State -> completion A * State.

Definition ret {A : Type} (a : A) : M A := fun s => (Normal a, s).

Definition bind {A B : Type} (m : M A) (k : A -> M B) : M B :=
  fun s =>
    match m s with
    | (Normal a, s') => k a s'
    | (Throw e, s') => (Throw e, s')
    end.

Definition try_catch {A : Type} (m : M A) (handler : error -> M A) : M A :=
  fun s =>
    match m s with
    | (Normal a, s') => (Normal a, s')
    | (Throw e, s') => handler e s'
    end.

#[local] Instance M_ret : MRet M := @ret.
#[local] Instance M_bind : MBind M := fun A B k m => bind m k.

Definition set_departuresByMinute (b : list (list Trip)) (s : State) : State :=
  {| stations := stations s; trips := trips s; arrivals := arrivals s;
     departures := departures s; timeFilter := timeFilter s;
     departuresByMinute := b; arrivalsByMinute := arrivalsByMinute s |}.

Definition set_arrivalsByMinute (b : list (list Trip)) (s : State) : State :=
  {| stations := stations s; trips := trips s; arrivals := arrivals s;
     departures := departures s; timeFilter := timeFilter s;
     departuresByMinute := departuresByMinute s; arrivalsByMinute := b |}.

Definition set_timeFilter (v : Z) (s : State) : State :=
  {| stations := stations s; trips := trips s; arrivals := arrivals s;
     departures := departures s; timeFilter := v;
     departuresByMinute := departuresByMinute s;
     arrivalsByMinute := arrivalsByMinute s |}.

(** [buckets[i].push(trip)]: a [TypeError] when [buckets[i]] is
    [undefined], otherwise [trip] is appended to that bucket in place. *)
Definition push_at (buckets : list (list Trip)) (i : number) (trip : Trip)
  : completion (list (list Trip)) :=
  match index buckets i with
  | None => Throw TypeError
  | Some bucket =>
      match i with
      | Int k => Normal (<[Z.to_nat k := bucket ++ [trip]]> buckets)
      | NaN => Throw TypeError
      end
  end.

Definition departuresByMinute_push (i : number) (trip : Trip) : M unit :=
  fun s =>
    match push_at (departuresByMinute s) i trip with
    | Normal b => (Normal tt, set_departuresByMinute b s)
    | Throw e => (Throw e, s)
    end.

Definition arrivalsByMinute_push (i : number) (trip : Trip) : M unit :=
  fun s =>
    match push_at (arrivalsByMinute s) i trip with
    | Normal b => (Normal tt, set_arrivalsByMinute b s)
    | Throw e => (Throw e, s)
    end.

(** ** loadStationDemand (lines 126-172) *)

(** Lines 133-134: the two time cells become [Date] objects. *)
Definition toTrip (row : Row) : Trip :=
  {| start_station_id := row_start_station_id row;
     end_station_id := row_end_station_id row;
     started_at := Date_parse (row_started_at row);
     ended_at := Date_parse (row_ended_at row) |}.

(** The body of the [for ... of] loop (lines 133-141). *)
Definition bucketTrip (row : Row) : M Trip :=
  let trip := toTrip row in
  let startedMinutes := minutesSinceMidnight (started_at trip) in
  departuresByMinute_push startedMinutes trip ;;
  let endedMinutes := minutesSinceMidnight (ended_at trip) in
  arrivalsByMinute_push endedMinutes trip ;;
  mret trip.

(** The [then] callback (lines 131-144): the loop over the rows, and the
    array, whose rows are now trips, returned. *)
Fixpoint bucketTrips (rows : list Row) : M (list Trip) :=
  match rows with
  | [] => mret []
  | row :: rest =>
      trip ← bucketTrip row ;
      others ← bucketTrips rest ;
      mret (trip :: others)
  end.

(** Lines 157-163. *)
Definition withTraffic (arrivals departures : gmap string nat)
    (station : Station) : Station :=
  let arr := default 0 (arrivals !! id station) in
  let dep := default 0 (departures !! id station) in
  {| id := id station; name := name station;
     Lat := Lat station; Long := Long station;
     st_arrivals := arr; st_departures := dep;
     totalTraffic := arr + dep |}.

(** Lines 131-163, once the rows have been bucketed. *)
Definition storeDemand (loaded : list Trip) : M unit :=
  fun s =>
    let departures' := d3_rollup loaded (fun v => length v) start_station_id in
    let arrivals' := d3_rollup loaded (fun v => length v) end_station_id in
    (Normal tt,
     {| stations := map (withTraffic arrivals' departures') (stations s);
        trips := loaded;
        arrivals := arrivals';
        departures := departures';
        timeFilter := timeFilter s;
        departuresByMinute := departuresByMinute s;
        arrivalsByMinute := arrivalsByMinute s |}).

(** [csv] is what [d3.csv] resolves to. The [catch] clause only logs. *)
Definition loadStationDemand (csv : list Row) : M unit :=
  try_catch
    (loaded ← bucketTrips csv ;
     storeDemand loaded)
    (fun _ => mret tt).

(** ** The reactive declarations (lines 24-42) *)

Definition filteredDepartures (s : State) : gmap string nat :=
  if (timeFilter s =? -1)%Z then departures s
  else d3_rollup (filterByMinute (trips s) (departuresByMinute s) (timeFilter s))
         (fun v => length v) start_station_id.

Definition filteredArrivals (s : State) : gmap string nat :=
  if (timeFilter s =? -1)%Z then arrivals s
  else d3_rollup (filterByMinute (trips s) (arrivalsByMinute s) (timeFilter s))
         (fun v => length v) end_station_id.

(** The callback of [stations.map] (lines 32-42), over the two maps it
    reads. *)
Definition trafficRecord (filteredArrivals filteredDepartures : gmap string nat)
    (station : Station) : Station :=
  let id' := id station in
  let arr := default 0 (filteredArrivals !! id') in
  let dep := default 0 (filteredDepartures !! id') in
  {| id := id station; name := name station;
     Lat := Lat station; Long := Long station;
     st_arrivals := arr;
     st_departures := dep;
     totalTraffic := arr + dep |}.

Definition trafficView (stations : list Station)
    (filteredArrivals filteredDepartures : gmap string nat) : list Station :=
  map (trafficRecord filteredArrivals filteredDepartures) stations.

Definition filteredStations (s : State) : list Station :=
  trafficView (stations s) (filteredArrivals s) (filteredDepartures s).

(** ** The two views the properties compare *)

(** The minute slots [from, from + 1, ..., to]. *)
Definition minuteRange (from to : Z) : list Z := seqZ from (to - from + 1).

(** The window as the design states it: [lo .. hi] when [lo <= hi],
    otherwise [lo .. 1439] followed by [0 .. hi]. *)
Definition window (h m : Z) : list Z :=
  let lo := ((m - h + 1440) mod 1440)%Z in
  let hi := ((m + h) mod 1440)%Z in
  if (lo <=? hi)%Z then minuteRange lo hi
  else minuteRange lo 1439 ++ minuteRange 0 hi.

(** A row whose two time cells the [Date] constructor understands. *)
Definition validRow (row : Row) : Prop :=
  Date_parse (row_started_at row) <> InvalidDate
  /\ Date_parse (row_ended_at row) <> InvalidDate.

(** The buckets of the given minute slots, flattened in that order. *)
Definition bucketsAt (tripsByMinute : list (list Trip)) (slots : list Z)
  : list Trip :=
  flat (map (fun i => default [] (tripsByMinute !! Z.to_nat i)) slots).

(** How many values of a list have the key [k]. *)
Definition countKey {A : Type} (key : A -> string) (k : string) (values : list A)
  : nat :=
  length (filter (fun v => key v = k) values).

End Engine.

(** ** Sample data

    A host on UTC, a clock that reads the time of day of a text
    [YYYY-MM-DD hh:mm:ss] (on day 0; the date is not used), and the three
    trips of the design's scenario. *)
Module Sample.

Definition tz : Z -> Z := fun _ => 0%Z.

Definition digit (c : Ascii.ascii) : option Z :=
  let n := Z.of_N (Ascii.N_of_ascii c) in
  if ((48 <=? n) && (n <=? 57))%Z then Some (n - 48)%Z else None.

Definition twoDigits (s : string) (i : nat) : option Z :=
  match String.get i s, String.get (S i) s with
  | Some a, Some b =>
      match digit a, digit b with
      | Some x, Some y => Some (10 * x + y)%Z
      | _, _ => None
      end
  | _, _ => None
  end.

Definition parse (s : string) : Date :=
  match twoDigits s 11, twoDigits s 14 with
  | Some h, Some m =>
      if ((h <? 24) && (m <? 60))%Z
      then TimeValue ((h * 60 + m) * msPerMinute)
      else InvalidDate
  | _, _ => InvalidDate
  end.

Definition row1 : Row := mkRow "A" "B" "2024-03-01 08:05:00" "2024-03-01 08:20:00".
Definition row2 : Row := mkRow "B" "A" "2024-03-01 08:50:00" "2024-03-01 09:10:00".
Definition row3 : Row := mkRow "A" "A" "2024-03-01 23:50:00" "2024-03-02 00:10:00".
Definition rows : list Row := [row1; row2; row3].

(** A trip from a station the registry does not know. *)
Definition rowX : Row := mkRow "X" "A" "2024-03-01 00:30:00" "2024-03-01 00:45:00".

Definition stationA : @Station Z := mkStation "A" "Alpha" 42%Z (-71)%Z 0 0 0.
Definition stationB : @Station Z := mkStation "B" "Beta" 43%Z (-72)%Z 0 0 0.

Definition registry : State :=
  {| stations := [stationA; stationB];
     trips := [];
     arrivals := ∅;
     departures := ∅;
     timeFilter := (-1)%Z;
     departuresByMinute := emptyBuckets;
     arrivalsByMinute := emptyBuckets |}.

(** The variables once [rs] has been loaded into the registry. *)
Definition loaded (rs : list Row) : @State Z :=
  snd (loadStationDemand tz parse rs registry).

(** A bucket array whose only trip sits in slot [k]. *)
Definition oneTripAt (k : nat) : list (list Trip) :=
  <[k := [toTrip parse row1]]> emptyBuckets.

(** Two states with the same buckets and nothing else in common. *)
Definition quiet : @State Z :=
  {| stations := [];
     trips := [];
     arrivals := ∅;
     departures := ∅;
     timeFilter := (-1)%Z;
     departuresByMinute := oneTripAt 485;
     arrivalsByMinute := oneTripAt 500 |}.

Definition busy : @State Z :=
  {| stations := [stationA];
     trips := [toTrip parse row2; toTrip parse row3];
     arrivals := {["A" := 2]};
     departures := {["B" := 1]};
     timeFilter := 7%Z;
     departuresByMinute := oneTripAt 485;
     arrivalsByMinute := oneTripAt 500 |}.

End Sample.

(** ** The rest of the component: station load, mount, radius scale *)

(** A row of the station CSV as [d3.csv] yields it. *)
Record StationRow : Type := mkStationRow {
  Number : string;
  NAME : string;
  csv_Lat : string;
  csv_Long : string
}.

(** [d3.max(values, valueof)] on counts, as d3-array computes it: the first
    value starts the maximum, a later one replaces it when it is strictly
    larger; [undefined] (here [None]) for no values. *)
Definition d3_max {A : Type} (values : list A) (valueof : A -> nat) : option nat :=
  foldl (fun max value =>
           let v := valueof value in
           match max with
           | None => Some v
           | Some m => if m <? v then Some v else Some m
           end) None values.

(** [x || 0] for a count or [undefined]. *)
Definition or_zero (x : option nat) : nat :=
  match x with
  | Some (S n) => S n
  | Some 0 => 0
  | None => 0
  end.

(** The sum of the counts a map holds. *)
Definition totalCount (counts : gmap string nat) : nat :=
  map_fold (fun _ n acc => n + acc) 0 counts.

(** Whether minute [k] is at most 60 minutes from [center], going round the
    clock either way. *)
Definition nearMinute (center k : Z) : bool :=
  let d := ((k - center) mod 1440)%Z in
  ((d <=? 60) || (1380 <=? d))%Z.

(** How [await initMap()] (lines 76-105) ends: the map loads; the [Map]
    constructor or a later call throws; or the [load] event never comes.
    The map itself is presentation and is not modelled. *)
Inductive initMapOutcome : Type :=
  | MapLoaded
  | MapThrows
  | MapNeverLoads.

(** How the promise of an [async] function ends. *)
Inductive settlement : Type :=
  | Fulfilled
  | Rejected
  | Pending.

Section Mount.

(** As before, and [+cell], the number a CSV cell reads as. *)
Context (LocalTZA : Z -> Z) (Date_parse : string -> Date) {coord : Type}
        (toNumber : string -> coord).

Definition set_stations (l : list (@Station coord)) (s : @State coord)
  : @State coord :=
  {| stations := l; trips := trips s; arrivals := arrivals s;
     departures := departures s; timeFilter := timeFilter s;
     departuresByMinute := departuresByMinute s;
     arrivalsByMinute := arrivalsByMinute s |}.

(** The callback of [data.map] (lines 112-120). *)
Definition toStation (station : StationRow) : @Station coord :=
  {| id := Number station;
     name := NAME station;
     Lat := toNumber (csv_Lat station);
     Long := toNumber (csv_Long station);
     st_arrivals := 0;
     st_departures := 0;
     totalTraffic := 0 |}.

(** [loadStationData] (lines 107-124); [data] is what [d3.csv] resolves
    to. The [catch] clause only logs. *)
Definition loadStationData (data : list StationRow) : @M coord unit :=
  try_catch
    (fun s => (Normal tt, set_stations (map toStation data) s))
    (fun _ => ret tt).

(** [onMount] (lines 174-183). [await initMap()] comes first and is not
    inside any [try]: when it rejects, the mount rejects and no file is
    loaded; when the map never loads, the mount waits for ever. Only when
    the map has loaded are the stations loaded, then the trips; both loads
    absorb their own exceptions, and the closing [map.on] only registers a
    handler. *)
Definition onMount (initMap : initMapOutcome) (data : list StationRow)
    (csv : list Row) (s : @State coord) : settlement * @State coord :=
  match initMap with
  | MapLoaded =>
      match bind (loadStationData data)
                 (fun _ => loadStationDemand LocalTZA Date_parse csv) s with
      | (Normal _, s') => (Fulfilled, s')
      | (Throw _, s') => (Rejected, s')
      end
  | MapThrows => (Rejected, s)
  | MapNeverLoads => (Pending, s)
  end.

(** The arguments [filteredRadiusScale] (lines 44-47) gives to
    [d3.scaleSqrt]: the domain [[0, d3.max(...) || 0]] and the range. The
    scale itself computes with doubles and is not modelled. *)
Definition filteredRadiusScale_domain (s : @State coord) : nat * nat :=
  (0, or_zero (d3_max (filteredStations s) totalTraffic)).

Definition filteredRadiusScale_range (s : @State coord) : Z * Z :=
  if (timeFilter s =? -1)%Z then (0, 25)%Z else (3, 30)%Z.

(** Whether a trip starts, or ends, within an hour of [center]. *)
Definition startsNear (center : Z) (t : Trip) : bool :=
  match minutesSinceMidnight LocalTZA (started_at t) with
  | Int k => nearMinute center k
  | NaN => false
  end.

Definition endsNear (center : Z) (t : Trip) : bool :=
  match minutesSinceMidnight LocalTZA (ended_at t) with
  | Int k => nearMinute center k
  | NaN => false
  end.

End Mount.

(** More sample data: a station file, a trip file with an unreadable row,
    and a bucket array that already holds a trip. *)
Module MountSample.

Definition toNumber (cell : string) : Z :=
  match Sample.twoDigits cell 0 with
  | Some n => n
  | None => 0%Z
  end.

Definition stationRows : list StationRow :=
  [mkStationRow "A" "Alpha" "42" "71"; mkStationRow "B" "Beta" "43" "72"].

Definition unreadable : Row := mkRow "A" "B" "soon" "later".
Definition lateEnd : Row := mkRow "B" "A" "2024-03-01 10:00:00" "later".

Definition started : @State Z :=
  {| stations := [Sample.stationA];
     trips := [toTrip Sample.parse Sample.rowX];
     arrivals := {["A" := 1]};
     departures := {["X" := 1]};
     timeFilter := 30%Z;
     departuresByMinute := Sample.oneTripAt 30;
     arrivalsByMinute := Sample.oneTripAt 45 |}.

End MountSample.

(** * Properties *)

Section WindowFacts.

(** ** Slices of the bucket array as runs of minute slots *)

Lemma length_minuteRange (from to : Z) :
  (from <= to + 1)%Z -> Z.of_nat (length (minuteRange from to)) = (to - from + 1)%Z.
Proof.
  intros Hle. unfold minuteRange. rewrite length_seqZ. lia.
Qed.

Lemma elem_of_minuteRange (from to i : Z) :
  i ∈ minuteRange from to <-> (from <= i <= to)%Z.
Proof.
  unfold minuteRange. rewrite elem_of_seqZ. lia.
Qed.

Lemma NoDup_minuteRange (from to : Z) : NoDup (minuteRange from to).
Proof. apply NoDup_seqZ. Qed.

(** [take n (drop k arr)], read slot by slot. *)
Lemma take_drop_slots (arr : list (list Trip)) (k n : nat) :
  k + n <= length arr ->
  take n (drop k arr)
  = map (fun i => default [] (arr !! Z.to_nat i)) (seqZ (Z.of_nat k) (Z.of_nat n)).
Proof.
  intros Hlen. apply list_eq. intros i.
  rewrite list_lookup_fmap.
  destruct (decide (i < n)) as [Hi | Hi].
  - rewrite lookup_take_lt by lia. rewrite lookup_drop.
    rewrite (lookup_seqZ_lt _ _ i) by lia. simpl.
    replace (Z.to_nat (Z.of_nat k + Z.of_nat i)) with (k + i) by lia.
    destruct (lookup_lt_is_Some_2 arr (k + i)) as [x Hx]; [lia |].
    rewrite Hx. reflexivity.
  - rewrite lookup_take_ge by lia.
    rewrite lookup_seqZ_ge by lia. reflexivity.
Qed.

Lemma slice_to_slots (arr : list (list Trip)) (lo hi : Z) :
  (0 <= lo)%Z -> (lo <= hi + 1)%Z -> (hi < Z.of_nat (length arr))%Z ->
  slice arr lo (Some (hi + 1)%Z)
  = map (fun i => default [] (arr !! Z.to_nat i)) (minuteRange lo hi).
Proof.
  intros H0 Hle Hhi. unfold slice, relativeIndex, minuteRange.
  destruct (Z.ltb_spec lo 0); [lia |].
  destruct (Z.ltb_spec (hi + 1) 0); [lia |].
  rewrite !Z.min_l by lia.
  rewrite take_drop_slots by lia.
  f_equal. f_equal; lia.
Qed.

Lemma slice_from_slots (arr : list (list Trip)) (lo : Z) :
  (0 <= lo)%Z -> (lo <= Z.of_nat (length arr))%Z ->
  slice arr lo None
  = map (fun i => default [] (arr !! Z.to_nat i))
        (minuteRange lo (Z.of_nat (length arr) - 1)).
Proof.
  intros H0 Hle. unfold slice, relativeIndex, minuteRange.
  destruct (Z.ltb_spec lo 0); [lia |].
  rewrite !Z.min_l by lia.
  rewrite take_drop_slots by lia.
  f_equal. f_equal; lia.
Qed.

(** The two bounds [filterByMinute] computes, for a center the slider can
    produce: they are the design's [lo] and [hi]. *)
Lemma minMinute_mod (minute : Z) :
  (-1380 <= minute)%Z ->
  minMinute_of minute = ((minute - 60 + 1440) mod 1440)%Z.
Proof. intros H. apply Z.rem_mod_nonneg; lia. Qed.

Lemma maxMinute_mod (minute : Z) :
  (-60 <= minute)%Z ->
  maxMinute_of minute = ((minute + 60) mod 1440)%Z.
Proof. intros H. apply Z.rem_mod_nonneg; lia. Qed.

(** [filterByMinute] selects the buckets of [window 60 minute], in the
    window's order. *)
Lemma filterByMinute_window (trips : list Trip) (tripsByMinute : list (list Trip))
    (minute : Z) :
  length tripsByMinute = 1440 ->
  (-60 <= minute)%Z -> minute <> (-1)%Z ->
  filterByMinute trips tripsByMinute minute
  = bucketsAt tripsByMinute (window 60 minute).
Proof.
  intros Hlen Hge Hne. unfold filterByMinute, window, bucketsAt.
  destruct (Z.eqb_spec minute (-1)); [contradiction |].
  rewrite minMinute_mod, maxMinute_mod by lia.
  pose proof (Z.mod_pos_bound (minute - 60 + 1440) 1440 ltac:(lia)) as Hlo.
  pose proof (Z.mod_pos_bound (minute + 60) 1440 ltac:(lia)) as Hhi.
  set (lo := ((minute - 60 + 1440) mod 1440)%Z) in *.
  set (hi := ((minute + 60) mod 1440)%Z) in *.
  cbv zeta.
  destruct (Z.gtb_spec lo hi) as [Hgt | Hngt];
    destruct (Z.leb_spec lo hi) as [Hle | Hnle]; try lia.
  - rewrite slice_from_slots, slice_to_slots by lia.
    rewrite Hlen, map_app. reflexivity.
  - rewrite slice_to_slots by lia. reflexivity.
Qed.

End WindowFacts.

Section WindowTheorems.

(** The window holds the 121 slots at circular distance at most 60 from its
    center, each once. *)
Lemma window_slots (m : Z) :
  (0 <= m <= 1439)%Z ->
  length (window 60 m) = 121
  /\ NoDup (window 60 m)
  /\ (forall i, i ∈ window 60 m ->  (0 <= i <= 1439)%Z)
  /\ (forall i, i ∈ window 60 m
        <-> exists d, (-60 <= d <= 60)%Z /\ i = ((m + d) mod 1440)%Z).
Proof.
  intros Hm. unfold window.
  assert (Hlo : ((m - 60 + 1440) mod 1440
                 = if m <? 60 then m + 1380 else m - 60)%Z).
  { destruct (Z.ltb_spec m 60).
    - symmetry. apply (Z.mod_unique _ _ 0); lia.
    - symmetry. apply (Z.mod_unique _ _ 1); lia. }
  assert (Hhi : ((m + 60) mod 1440
                 = if m <? 1380 then m + 60 else m - 1380)%Z).
  { destruct (Z.ltb_spec m 1380).
    - symmetry. apply (Z.mod_unique _ _ 0); lia.
    - symmetry. apply (Z.mod_unique _ _ 1); lia. }
  rewrite Hlo, Hhi. clear Hlo Hhi. cbv zeta.
  assert (Hshift : forall i d, (-60 <= d <= 60)%Z ->
            (i = (m + d) mod 1440)%Z <->
            (0 <= i <= 1439 /\ (i = m + d \/ i = m + d - 1440 \/ i = m + d + 1440))%Z).
  { intros i d Hd. split.
    - intros ->. pose proof (Z.mod_pos_bound (m + d) 1440 ltac:(lia)).
      pose proof (Z.div_mod (m + d) 1440 ltac:(lia)).
      assert ((m + d) / 1440 = -1 \/ (m + d) / 1440 = 0 \/ (m + d) / 1440 = 1)%Z by
        (assert (-2 < (m + d) / 1440 < 2)%Z; [nia | lia]).
      lia.
    - intros [Hi [-> | [-> | ->]]].
      + apply (Z.mod_unique _ _ 0); lia.
      + apply (Z.mod_unique _ _ 1); lia.
      + apply (Z.mod_unique _ _ (-1)); lia. }
  destruct (Z.ltb_spec m 60) as [H60 | H60];
    destruct (Z.ltb_spec m 1380) as [H1380 | H1380]; try lia.
  - (* the window starts before midnight *)
    destruct (Z.leb_spec (m + 1380) (m + 60)); [lia |].
    split; [| split; [| split; [| intros i; split]]].
    + apply Nat2Z.inj. rewrite length_app, Nat2Z.inj_add.
      rewrite !length_minuteRange by lia. lia.
    + apply NoDup_app. split; [apply NoDup_minuteRange |].
      split; [| apply NoDup_minuteRange]. intros i. rewrite !elem_of_minuteRange. lia.
    + intros i. rewrite elem_of_app, !elem_of_minuteRange. lia.
    + rewrite elem_of_app, !elem_of_minuteRange. intros [Hi | Hi].
      * exists (i - m - 1440)%Z. split; [lia |]. apply Hshift; lia.
      * exists (i - m)%Z. split; [lia |]. apply Hshift; lia.
    + intros [d [Hd Hi]]. apply Hshift in Hi; [| exact Hd].
      rewrite elem_of_app, !elem_of_minuteRange. lia.
  - (* the window lies within the day *)
    destruct (Z.leb_spec (m - 60) (m + 60)); [| lia].
    split; [| split; [| split; [| intros i; split]]].
    + apply Nat2Z.inj. rewrite length_minuteRange by lia. lia.
    + apply NoDup_minuteRange.
    + intros i. rewrite elem_of_minuteRange. lia.
    + rewrite elem_of_minuteRange. intros Hi.
      exists (i - m)%Z. split; [lia |]. apply Hshift; lia.
    + intros [d [Hd Hi]]. apply Hshift in Hi; [| exact Hd].
      rewrite elem_of_minuteRange. lia.
  - (* the window ends after midnight *)
    destruct (Z.leb_spec (m - 60) (m - 1380)); [lia |].
    split; [| split; [| split; [| intros i; split]]].
    + apply Nat2Z.inj. rewrite length_app, Nat2Z.inj_add.
      rewrite !length_minuteRange by lia. lia.
    + apply NoDup_app. split; [apply NoDup_minuteRange |].
      split; [| apply NoDup_minuteRange]. intros i. rewrite !elem_of_minuteRange. lia.
    + intros i. rewrite elem_of_app, !elem_of_minuteRange. lia.
    + rewrite elem_of_app, !elem_of_minuteRange. intros [Hi | Hi].
      * exists (i - m)%Z. split; [lia |]. apply Hshift; lia.
      * exists (i - m + 1440)%Z. split; [lia |]. apply Hshift; lia.
    + intros [d [Hd Hi]]. apply Hshift in Hi; [| exact Hd].
      rewrite elem_of_app, !elem_of_minuteRange. lia.
Qed.

(** C1: for a center minute [m] in [0, 1439] and half-width 60, with
    [lo = (m - 60 + 1440) mod 1440] and [hi = (m + 60) mod 1440], the
    buckets [filterByMinute] selects from a 1440-slot bucket array are those
    of [lo .. hi] when [lo <= hi] and of [lo .. 1439] followed by [0 .. hi]
    otherwise; these are 121 distinct slots of [0, 1439], namely every slot
    at circular distance at most 60 from [m]. *)
Theorem C1_window_has_121_distinct_slots
    (trips : list Trip) (tripsByMinute : list (list Trip)) (m : Z) :
  (0 <= m <= 1439)%Z ->
  length tripsByMinute = 1440 ->
  let lo := ((m - 60 + 1440) mod 1440)%Z in
  let hi := ((m + 60) mod 1440)%Z in
  let slots := if (lo <=? hi)%Z then minuteRange lo hi
               else minuteRange lo 1439 ++ minuteRange 0 hi in
  minMinute_of m = lo
  /\ maxMinute_of m = hi
  /\ filterByMinute trips tripsByMinute m = bucketsAt tripsByMinute slots
  /\ length slots = 121
  /\ NoDup slots
  /\ (forall i, i ∈ slots -> (0 <= i <= 1439)%Z)
  /\ (forall i, i ∈ slots
        <-> exists d, (-60 <= d <= 60)%Z /\ i = ((m + d) mod 1440)%Z).
Proof.
  intros Hm Hlen lo hi slots.
  split; [apply minMinute_mod; lia |].
  split; [apply maxMinute_mod; lia |].
  split; [apply filterByMinute_window; [exact Hlen | lia | lia] |].
  exact (window_slots m Hm).
Qed.

Lemma filterByMinute_center_0 (trips : list Trip) (tripsByMinute : list (list Trip)) :
  length tripsByMinute = 1440 ->
  filterByMinute trips tripsByMinute 0
  = bucketsAt tripsByMinute (minuteRange 1380 1439 ++ minuteRange 0 60).
Proof.
  intros Hlen. rewrite filterByMinute_window by (exact Hlen || lia). reflexivity.
Qed.

(** C2, with the window of center 1439 as the code computes it: with
    half-width 60, the window of center 0 is
    [1380 .. 1439] followed by [0 .. 60], and the window of center 1439 is
    [1379 .. 1439] followed by [0 .. 59]. *)
Theorem C2_boundary_windows
    (trips : list Trip) (tripsByMinute : list (list Trip)) :
  length tripsByMinute = 1440 ->
  filterByMinute trips tripsByMinute 0
  = bucketsAt tripsByMinute (minuteRange 1380 1439 ++ minuteRange 0 60)
  /\ filterByMinute trips tripsByMinute 1439
     = bucketsAt tripsByMinute (minuteRange 1379 1439 ++ minuteRange 0 59).
Proof.
  intros Hlen. split.
  - apply filterByMinute_center_0, Hlen.
  - rewrite filterByMinute_window by (exact Hlen || lia). reflexivity.
Qed.

(** The bounds computed for 1440 are those computed for 0, whatever the
    bucket array. *)
Lemma filterByMinute_1440 (trips : list Trip) (tripsByMinute : list (list Trip)) :
  filterByMinute trips tripsByMinute 1440 = filterByMinute trips tripsByMinute 0.
Proof. reflexivity. Qed.

(** C10: the filter value 1440 is accepted without error, and selects the
    trips that center minute 0 selects: those of the slots [1380 .. 1439]
    and [0 .. 60]. *)
Theorem C10_filter_1440_is_center_0
    (trips : list Trip) (tripsByMinute : list (list Trip)) :
  length tripsByMinute = 1440 ->
  filterByMinute_call trips tripsByMinute 1440
  = Normal (bucketsAt tripsByMinute (minuteRange 1380 1439 ++ minuteRange 0 60))
  /\ filterByMinute_call trips tripsByMinute 1440
     = filterByMinute_call trips tripsByMinute 0.
Proof.
  intros Hlen. unfold filterByMinute_call.
  rewrite filterByMinute_1440. split; [| reflexivity].
  f_equal. apply filterByMinute_center_0, Hlen.
Qed.

End WindowTheorems.

Section IngestionFacts.

Context (LocalTZA : Z -> Z) (Date_parse : string -> Date) {coord : Type}.

Implicit Types (s : @State coord) (row : Row) (rows : list Row).

(** ** The minute of day of a valid date *)

Lemma HourFromTime_bound (t : Z) : (0 <= HourFromTime t <= 23)%Z.
Proof.
  unfold HourFromTime.
  pose proof (Z.mod_pos_bound (t / msPerHour) 24 ltac:(lia)). lia.
Qed.

Lemma MinFromTime_bound (t : Z) : (0 <= MinFromTime t <= 59)%Z.
Proof.
  unfold MinFromTime.
  pose proof (Z.mod_pos_bound (t / msPerMinute) 60 ltac:(lia)). lia.
Qed.

Lemma minutesSinceMidnight_TimeValue (t : Z) :
  exists k : Z,
    minutesSinceMidnight LocalTZA (TimeValue t) = Int k /\ (0 <= k <= 1439)%Z.
Proof.
  exists (HourFromTime (LocalTime LocalTZA t) * 60
          + MinFromTime (LocalTime LocalTZA t))%Z.
  split; [reflexivity |].
  pose proof (HourFromTime_bound (LocalTime LocalTZA t)).
  pose proof (MinFromTime_bound (LocalTime LocalTZA t)). lia.
Qed.

Lemma minutesSinceMidnight_valid (date : Date) :
  date <> InvalidDate ->
  exists k : nat, minutesSinceMidnight LocalTZA date = Int (Z.of_nat k) /\ k < 1440.
Proof.
  intros Hvalid. destruct date as [| t]; [contradiction |].
  destruct (minutesSinceMidnight_TimeValue t) as [k [Hk Hrange]].
  exists (Z.to_nat k). rewrite Z2Nat.id by lia. split; [exact Hk | lia].
Qed.

Lemma minutesSinceMidnight_invalid : minutesSinceMidnight LocalTZA InvalidDate = NaN.
Proof. reflexivity. Qed.

(** ** Pushing onto a bucket *)

Lemma push_at_slot (buckets : list (list Trip)) (k : nat) (bucket : list Trip)
    (trip : Trip) :
  buckets !! k = Some bucket ->
  push_at buckets (Int (Z.of_nat k)) trip
  = Normal (<[k := bucket ++ [trip]]> buckets).
Proof.
  intros Hk. unfold push_at, index.
  destruct (Z.leb_spec 0 (Z.of_nat k)); [| lia].
  rewrite Nat2Z.id, Hk. reflexivity.
Qed.

Lemma push_at_outside (buckets : list (list Trip)) (i : number) (trip : Trip) :
  index buckets i = None -> push_at buckets i trip = Throw TypeError.
Proof. intros Hi. unfold push_at. rewrite Hi. reflexivity. Qed.

Lemma concat_push (buckets : list (list Trip)) (k : nat) (bucket : list Trip)
    (trip : Trip) :
  buckets !! k = Some bucket ->
  concat (<[k := bucket ++ [trip]]> buckets) ≡ₚ trip :: concat buckets.
Proof.
  revert k. induction buckets as [| b rest IH]; intros k Hk.
  - discriminate.
  - destruct k as [| k]; simpl in *.
    + injection Hk as ->. rewrite <- app_assoc. simpl.
      symmetry. apply Permutation_middle.
    + rewrite (IH k Hk). symmetry. apply Permutation_middle.
Qed.

(** ** The load loop *)

(** One round of the loop on a row with two valid time cells. *)
Lemma bucketTrip_valid row s :
  validRow Date_parse row ->
  length (departuresByMinute s) = 1440 ->
  length (arrivalsByMinute s) = 1440 ->
  exists (kd ka : nat) (bd ba : list Trip),
    minutesSinceMidnight LocalTZA (started_at (toTrip Date_parse row)) = Int (Z.of_nat kd)
    /\ minutesSinceMidnight LocalTZA (ended_at (toTrip Date_parse row)) = Int (Z.of_nat ka)
    /\ departuresByMinute s !! kd = Some bd
    /\ arrivalsByMinute s !! ka = Some ba
    /\ bucketTrip LocalTZA Date_parse row s
       = (Normal (toTrip Date_parse row),
          set_arrivalsByMinute
            (<[ka := ba ++ [toTrip Date_parse row]]> (arrivalsByMinute s))
            (set_departuresByMinute
               (<[kd := bd ++ [toTrip Date_parse row]]> (departuresByMinute s))
               s)).
Proof.
  intros [Hstart Hend] Hdep Harr.
  destruct (minutesSinceMidnight_valid _ Hstart) as [kd [Hkd Hkd_lt]].
  destruct (minutesSinceMidnight_valid _ Hend) as [ka [Hka Hka_lt]].
  destruct (lookup_lt_is_Some_2 (departuresByMinute s) kd) as [bd Hbd]; [lia |].
  destruct (lookup_lt_is_Some_2 (arrivalsByMinute s) ka) as [ba Hba]; [lia |].
  exists kd, ka, bd, ba.
  repeat (split; [assumption |]).
  unfold bucketTrip, mbind, M_bind, bind, mret, M_ret, ret,
    departuresByMinute_push, arrivalsByMinute_push.
  simpl in Hkd, Hka. simpl. rewrite Hkd.
  rewrite (push_at_slot _ _ _ _ Hbd). simpl. rewrite Hka.
  rewrite (push_at_slot _ _ _ _ Hba). reflexivity.
Qed.

(** The loop over rows that all have valid time cells: it completes, it
    returns the rows as trips, and it appends to the bucket of slot [k], in
    order, the trips whose minute of day is [k]. *)
Lemma bucketTrips_valid rows s :
  Forall (validRow Date_parse) rows ->
  length (departuresByMinute s) = 1440 ->
  length (arrivalsByMinute s) = 1440 ->
  exists dep arr : list (list Trip),
    bucketTrips LocalTZA Date_parse rows s
    = (Normal (map (toTrip Date_parse) rows),
       set_arrivalsByMinute arr (set_departuresByMinute dep s))
    /\ length dep = 1440
    /\ length arr = 1440
    /\ (forall k : nat,
          dep !! k
          = (fun b => b ++ filter (fun t => minutesSinceMidnight LocalTZA (started_at t) = Int (Z.of_nat k))
                               (map (toTrip Date_parse) rows))
              <$> departuresByMinute s !! k)
    /\ (forall k : nat,
          arr !! k
          = (fun b => b ++ filter (fun t => minutesSinceMidnight LocalTZA (ended_at t) = Int (Z.of_nat k))
                               (map (toTrip Date_parse) rows))
              <$> arrivalsByMinute s !! k)
    /\ concat dep ≡ₚ concat (departuresByMinute s) ++ map (toTrip Date_parse) rows
    /\ concat arr ≡ₚ concat (arrivalsByMinute s) ++ map (toTrip Date_parse) rows.
Proof.
  intros Hrows. revert s.
  induction Hrows as [| row rest Hrow Hrest IH]; intros s Hdep Harr.
  - exists (departuresByMinute s), (arrivalsByMinute s).
    split; [destruct s; reflexivity |].
    split; [exact Hdep |]. split; [exact Harr |].
    split; [| split; [| split]].
    + intros k. simpl. destruct (departuresByMinute s !! k); simpl;
        [rewrite app_nil_r |]; reflexivity.
    + intros k. simpl. destruct (arrivalsByMinute s !! k); simpl;
        [rewrite app_nil_r |]; reflexivity.
    + simpl. rewrite app_nil_r. reflexivity.
    + simpl. rewrite app_nil_r. reflexivity.
  - destruct (bucketTrip_valid row s Hrow Hdep Harr)
      as (kd & ka & bd & ba & Hkd & Hka & Hbd & Hba & Hstep).
    set (trip := toTrip Date_parse row) in *.
    set (s1 := set_arrivalsByMinute (<[ka := ba ++ [trip]]> (arrivalsByMinute s))
                 (set_departuresByMinute
                    (<[kd := bd ++ [trip]]> (departuresByMinute s)) s)) in *.
    destruct (IH s1) as (dep & arr & Hloop & Hldep & Hlarr & Hd & Ha & Hpd & Hpa).
    { simpl. rewrite length_insert. exact Hdep. }
    { simpl. rewrite length_insert. exact Harr. }
    exists dep, arr.
    split.
    { simpl. unfold mbind, M_bind, bind. rewrite Hstep.
      fold (@bucketTrips LocalTZA Date_parse coord rest). rewrite Hloop.
      destruct s; reflexivity. }
    split; [exact Hldep |]. split; [exact Hlarr |].
    split; [| split; [| split]].
    + intros k. rewrite Hd. simpl.
      destruct (decide (k = kd)) as [-> | Hne].
      * rewrite list_lookup_insert_eq by (apply lookup_lt_Some in Hbd; exact Hbd).
        rewrite Hbd. simpl. rewrite filter_cons_True by exact Hkd.
        rewrite <- app_assoc. reflexivity.
      * rewrite list_lookup_insert_ne by congruence.
        rewrite filter_cons_False; [reflexivity |].
        fold trip. rewrite Hkd. intros Heq. injection Heq as Heq. lia.
    + intros k. rewrite Ha. simpl.
      destruct (decide (k = ka)) as [-> | Hne].
      * rewrite list_lookup_insert_eq by (apply lookup_lt_Some in Hba; exact Hba).
        rewrite Hba. simpl. rewrite filter_cons_True by exact Hka.
        rewrite <- app_assoc. reflexivity.
      * rewrite list_lookup_insert_ne by congruence.
        rewrite filter_cons_False; [reflexivity |].
        fold trip. rewrite Hka. intros Heq. injection Heq as Heq. lia.
    + rewrite Hpd. simpl. rewrite (concat_push _ _ _ _ Hbd).
      fold trip. simpl. apply Permutation_middle.
    + rewrite Hpa. simpl. rewrite (concat_push _ _ _ _ Hba).
      fold trip. simpl. apply Permutation_middle.
Qed.

End IngestionFacts.

Section RollupFacts.

Context {A : Type}.
Implicit Types (values : list A) (key : A -> string) (k : string).

(** ** What [d3.rollup] holds under a key *)

Lemma d3_group_step_lookup key k (groups : gmap string (list A)) values :
  foldl (fun groups value =>
           match groups !! key value with
           | Some group => <[key value := group ++ [value]]> groups
           | None => <[key value := [value]]> groups
           end) groups values !! k
  = match filter (fun v => key v = k) values with
    | [] => groups !! k
    | g => Some (default [] (groups !! k) ++ g)
    end.
Proof.
  revert groups. induction values as [| v rest IH]; intros groups.
  - reflexivity.
  - simpl. rewrite IH. destruct (decide (key v = k)) as [Heq | Hne].
    + rewrite filter_cons_True by exact Heq.
      assert (Hstep : match groups !! key v with
                      | Some group => <[key v := group ++ [v]]> groups
                      | None => <[key v := [v]]> groups
                      end !! k = Some (default [] (groups !! k) ++ [v])).
      { rewrite <- Heq. destruct (groups !! key v); simpl;
          rewrite lookup_insert_eq; reflexivity. }
      rewrite Hstep. simpl.
      destruct (filter (fun v0 => key v0 = k) rest); simpl.
      * reflexivity.
      * rewrite <- app_assoc. reflexivity.
    + rewrite filter_cons_False by exact Hne.
      assert (Hstep : match groups !! key v with
                      | Some group => <[key v := group ++ [v]]> groups
                      | None => <[key v := [v]]> groups
                      end !! k = groups !! k).
      { destruct (groups !! key v); rewrite lookup_insert_ne; congruence. }
      rewrite Hstep. reflexivity.
Qed.

Lemma d3_group_lookup values key k :
  d3_group values key !! k
  = match filter (fun v => key v = k) values with
    | [] => None
    | g => Some g
    end.
Proof.
  unfold d3_group. rewrite d3_group_step_lookup, lookup_empty. reflexivity.
Qed.

(** The count kept under [k] is the number of values with that key, and a
    key no value has is absent. *)
Lemma d3_rollup_count_lookup values key k :
  d3_rollup values (fun v => length v) key !! k
  = if decide (countKey key k values = 0) then None
    else Some (countKey key k values).
Proof.
  unfold d3_rollup, countKey. rewrite lookup_fmap, d3_group_lookup.
  destruct (filter (fun v => key v = k) values); reflexivity.
Qed.

Lemma countKey_perm key k (l1 l2 : list A) :
  l1 ≡ₚ l2 -> countKey key k l1 = countKey key k l2.
Proof. intros Hperm. unfold countKey. rewrite Hperm. reflexivity. Qed.

Lemma countKey_pos key (values : list A) (v : A) :
  v ∈ values -> 0 < countKey key (key v) values.
Proof.
  intros Hin. unfold countKey.
  assert (Hv : v ∈ filter (fun v0 => key v0 = key v) values).
  { apply list_elem_of_filter. split; [reflexivity | exact Hin]. }
  destruct (filter (fun v0 => key v0 = key v) values).
  - inversion Hv.
  - simpl. lia.
Qed.

(** Counting per key does not depend on the order of the values. *)
Lemma d3_rollup_count_perm key (l1 l2 : list A) :
  l1 ≡ₚ l2 ->
  d3_rollup l1 (fun v => length v) key = d3_rollup l2 (fun v => length v) key.
Proof.
  intros Hperm. apply map_eq. intros k.
  rewrite !d3_rollup_count_lookup, (countKey_perm key k l1 l2 Hperm).
  reflexivity.
Qed.

End RollupFacts.

Section LoadFacts.

Context (LocalTZA : Z -> Z) (Date_parse : string -> Date) {coord : Type}.
Implicit Types (s : @State coord) (row : Row) (rows : list Row).

Lemma length_emptyBuckets : length emptyBuckets = 1440.
Proof. reflexivity. Qed.

Lemma concat_emptyBuckets : concat emptyBuckets = [].
Proof. reflexivity. Qed.

Lemma lookup_emptyBuckets (k : nat) :
  k < 1440 -> emptyBuckets !! k = Some [].
Proof. intros Hk. unfold emptyBuckets. apply lookup_replicate_2. exact Hk. Qed.

(** Loading rows that all have valid time cells into empty buckets: the
    variables it leaves behind. *)
Lemma loadStationDemand_valid rows s :
  Forall (validRow Date_parse) rows ->
  departuresByMinute s = emptyBuckets ->
  arrivalsByMinute s = emptyBuckets ->
  let loaded := map (toTrip Date_parse) rows in
  let s' := snd (loadStationDemand LocalTZA Date_parse rows s) in
  fst (loadStationDemand LocalTZA Date_parse rows s) = Normal tt
  /\ trips s' = loaded
  /\ departures s' = d3_rollup loaded (fun v => length v) start_station_id
  /\ arrivals s' = d3_rollup loaded (fun v => length v) end_station_id
  /\ timeFilter s' = timeFilter s
  /\ length (departuresByMinute s') = 1440
  /\ length (arrivalsByMinute s') = 1440
  /\ (forall k : nat, k < 1440 ->
        departuresByMinute s' !! k
        = Some (filter (fun t => minutesSinceMidnight LocalTZA (started_at t)
                                 = Int (Z.of_nat k)) loaded))
  /\ (forall k : nat, k < 1440 ->
        arrivalsByMinute s' !! k
        = Some (filter (fun t => minutesSinceMidnight LocalTZA (ended_at t)
                                 = Int (Z.of_nat k)) loaded))
  /\ concat (departuresByMinute s') ≡ₚ loaded
  /\ concat (arrivalsByMinute s') ≡ₚ loaded.
Proof.
  intros Hrows Hdep Harr loaded s'.
  destruct (bucketTrips_valid LocalTZA Date_parse rows s Hrows)
    as (dep & arr & Hloop & Hldep & Hlarr & Hd & Ha & Hpd & Hpa).
  { rewrite Hdep. apply length_emptyBuckets. }
  { rewrite Harr. apply length_emptyBuckets. }
  assert (Hload : loadStationDemand LocalTZA Date_parse rows s
          = storeDemand loaded
              (set_arrivalsByMinute arr (set_departuresByMinute dep s))).
  { unfold loadStationDemand, try_catch, mbind, M_bind, bind.
    rewrite Hloop. reflexivity. }
  subst s'. rewrite Hload. simpl.
  repeat (split; [reflexivity || assumption |]).
  split; [| split; [| split]].
  - intros k Hk. rewrite Hd, Hdep, lookup_emptyBuckets by exact Hk. reflexivity.
  - intros k Hk. rewrite Ha, Harr, lookup_emptyBuckets by exact Hk. reflexivity.
  - rewrite Hpd, Hdep, concat_emptyBuckets. reflexivity.
  - rewrite Hpa, Harr, concat_emptyBuckets. reflexivity.
Qed.

End LoadFacts.

Section EngineTheorems.

Context (LocalTZA : Z -> Z) (Date_parse : string -> Date) {coord : Type}.
Implicit Types (s : @State coord) (row : Row) (rows : list Row).
Implicit Types (stations : list (@Station coord)).

Lemma length_concat_buckets (buckets : list (list Trip)) :
  length (concat buckets) = sum_list_with length buckets.
Proof.
  induction buckets as [| b rest IH]; simpl.
  - reflexivity.
  - rewrite length_app, IH. reflexivity.
Qed.

Lemma window_in_bounds (h m i : Z) :
  i ∈ window h m -> (0 <= i <= 1439)%Z.
Proof.
  unfold window.
  pose proof (Z.mod_pos_bound (m - h + 1440) 1440 ltac:(lia)).
  pose proof (Z.mod_pos_bound (m + h) 1440 ltac:(lia)).
  destruct (Z.leb_spec ((m - h + 1440) mod 1440) ((m + h) mod 1440)).
  - rewrite elem_of_minuteRange. lia.
  - rewrite elem_of_app, !elem_of_minuteRange. lia.
Qed.

Lemma window_mod (h m : Z) : window h (m mod 1440) = window h m.
Proof.
  unfold window.
  replace (m mod 1440 - h + 1440)%Z with (m mod 1440 + (1440 - h))%Z by lia.
  replace (m - h + 1440)%Z with (m + (1440 - h))%Z by lia.
  rewrite !Zplus_mod_idemp_l. reflexivity.
Qed.

(** C3: loading trips with valid timestamps into empty buckets completes,
    and afterwards departure bucket [k] holds, in order, exactly the loaded
    trips whose start minute is [k], and arrival bucket [k] those whose end
    minute is [k]. So each trip is in the one departure bucket of its start
    minute and the one arrival bucket of its end minute and in no other,
    and the lengths of the 1440 departure buckets, and of the 1440 arrival
    buckets, add up to the number of trips. Nothing is asked of the station
    ids or of the station list. *)
Theorem C3_each_trip_in_one_bucket rows s :
  Forall (validRow Date_parse) rows ->
  departuresByMinute s = emptyBuckets ->
  arrivalsByMinute s = emptyBuckets ->
  let s' := snd (loadStationDemand LocalTZA Date_parse rows s) in
  fst (loadStationDemand LocalTZA Date_parse rows s) = Normal tt
  /\ trips s' = map (toTrip Date_parse) rows
  /\ (forall k : nat, k < 1440 ->
        departuresByMinute s' !! k
        = Some (filter (fun t => minutesSinceMidnight LocalTZA (started_at t)
                                 = Int (Z.of_nat k)) (trips s')))
  /\ (forall k : nat, k < 1440 ->
        arrivalsByMinute s' !! k
        = Some (filter (fun t => minutesSinceMidnight LocalTZA (ended_at t)
                                 = Int (Z.of_nat k)) (trips s')))
  /\ (forall t, t ∈ trips s' ->
        exists kd ka : nat,
          kd < 1440 /\ ka < 1440
          /\ minutesSinceMidnight LocalTZA (started_at t) = Int (Z.of_nat kd)
          /\ minutesSinceMidnight LocalTZA (ended_at t) = Int (Z.of_nat ka)
          /\ (forall j bucket, departuresByMinute s' !! j = Some bucket ->
                (t ∈ bucket <-> j = kd))
          /\ (forall j bucket, arrivalsByMinute s' !! j = Some bucket ->
                (t ∈ bucket <-> j = ka)))
  /\ length (departuresByMinute s') = 1440
  /\ length (arrivalsByMinute s') = 1440
  /\ sum_list_with length (departuresByMinute s') = length rows
  /\ sum_list_with length (arrivalsByMinute s') = length rows.
Proof.
  intros Hrows Hdep Harr s'.
  destruct (loadStationDemand_valid LocalTZA Date_parse rows s Hrows Hdep Harr)
    as (Hok & Htrips & _ & _ & _ & Hldep & Hlarr & Hd & Ha & Hpd & Hpa).
  fold s' in Htrips, Hldep, Hlarr, Hd, Ha, Hpd, Hpa.
  split; [exact Hok |]. split; [exact Htrips |].
  split; [intros k Hk; rewrite Htrips; apply Hd, Hk |].
  split; [intros k Hk; rewrite Htrips; apply Ha, Hk |].
  split.
  { intros t Ht. rewrite Htrips in Ht.
    assert (Hvalid : started_at t <> InvalidDate /\ ended_at t <> InvalidDate).
    { apply list_elem_of_fmap in Ht. destruct Ht as [row [-> Hrow]].
      rewrite Forall_forall in Hrows. exact (Hrows row Hrow). }
    destruct Hvalid as [Hstart Hend].
    destruct (minutesSinceMidnight_valid LocalTZA _ Hstart) as [kd [Hkd Hkd_lt]].
    destruct (minutesSinceMidnight_valid LocalTZA _ Hend) as [ka [Hka Hka_lt]].
    exists kd, ka.
    repeat (split; [assumption |]).
    split.
    - intros j bucket Hj.
      assert (Hj_lt : j < 1440) by (apply lookup_lt_Some in Hj; lia).
      rewrite (Hd j Hj_lt) in Hj. injection Hj as <-.
      rewrite list_elem_of_filter, Hkd. split.
      + intros [Heq _]. injection Heq as Heq. lia.
      + intros ->. split; [reflexivity | exact Ht].
    - intros j bucket Hj.
      assert (Hj_lt : j < 1440) by (apply lookup_lt_Some in Hj; lia).
      rewrite (Ha j Hj_lt) in Hj. injection Hj as <-.
      rewrite list_elem_of_filter, Hka. split.
      + intros [Heq _]. injection Heq as Heq. lia.
      + intros ->. split; [reflexivity | exact Ht]. }
  split; [exact Hldep |]. split; [exact Hlarr |].
  rewrite <- !length_concat_buckets, Hpd, Hpa, length_map. split; reflexivity.
Qed.

(** C4: the traffic view has one record per station of the list, in the
    list's order; the record of a station keeps its id, name and position
    and carries [arrivals = arrivalsMap.get(id) ?? 0],
    [departures = departuresMap.get(id) ?? 0] and
    [totalTraffic = arrivals + departures]; a station in neither map gets
    three zeros. *)
Theorem C4_one_traffic_record_per_station stations
    (arrivalsMap departuresMap : gmap string nat) (i : nat) (station : Station) :
  stations !! i = Some station ->
  length (trafficView stations arrivalsMap departuresMap) = length stations
  /\ (forall r, r ∈ trafficView stations arrivalsMap departuresMap ->
        totalTraffic r = st_arrivals r + st_departures r)
  /\ exists r,
       trafficView stations arrivalsMap departuresMap !! i = Some r
       /\ id r = id station /\ name r = name station
       /\ Lat r = Lat station /\ Long r = Long station
       /\ st_arrivals r = default 0 (arrivalsMap !! id station)
       /\ st_departures r = default 0 (departuresMap !! id station)
       /\ totalTraffic r = st_arrivals r + st_departures r
       /\ (arrivalsMap !! id station = None ->
           departuresMap !! id station = None ->
           st_arrivals r = 0 /\ st_departures r = 0 /\ totalTraffic r = 0).
Proof.
  intros Hi. unfold trafficView.
  split; [apply length_map |].
  split.
  - intros r Hr. apply list_elem_of_fmap in Hr. destruct Hr as [st [-> _]].
    reflexivity.
  - exists (trafficRecord arrivalsMap departuresMap station).
    split; [rewrite list_lookup_fmap, Hi; reflexivity |].
    repeat (split; [reflexivity |]).
    intros Harr Hdep. simpl. rewrite Harr, Hdep. auto.
Qed.

(** C5: once a trip log with valid timestamps has been loaded into empty
    buckets, the maps used on the unfiltered path (filter value -1) are the
    maps obtained by flattening all the departure buckets, respectively all
    the arrival buckets, and counting per station id; the flattened buckets
    hold as many trips as the log. *)
Theorem C5_unfiltered_equals_all_buckets rows s :
  Forall (validRow Date_parse) rows ->
  departuresByMinute s = emptyBuckets ->
  arrivalsByMinute s = emptyBuckets ->
  let s' := set_timeFilter (-1)
              (snd (loadStationDemand LocalTZA Date_parse rows s)) in
  filteredDepartures s'
  = d3_rollup (flat (departuresByMinute s')) (fun v => length v) start_station_id
  /\ filteredArrivals s'
     = d3_rollup (flat (arrivalsByMinute s')) (fun v => length v) end_station_id
  /\ length (flat (departuresByMinute s')) = length (trips s')
  /\ length (flat (arrivalsByMinute s')) = length (trips s')
  /\ filterByMinute (trips s') (departuresByMinute s') (-1)
     ≡ₚ flat (departuresByMinute s')
  /\ filterByMinute (trips s') (arrivalsByMinute s') (-1)
     ≡ₚ flat (arrivalsByMinute s').
Proof.
  intros Hrows Hdep Harr s'.
  destruct (loadStationDemand_valid LocalTZA Date_parse rows s Hrows Hdep Harr)
    as (_ & Htrips & Hdmap & Hamap & _ & _ & _ & _ & _ & Hpd & Hpa).
  subst s'. unfold filteredDepartures, filteredArrivals, flat. simpl.
  rewrite Hdmap, Hamap, Htrips.
  split; [symmetry; apply d3_rollup_count_perm, Hpd |].
  split; [symmetry; apply d3_rollup_count_perm, Hpa |].
  split; [rewrite Hpd; reflexivity |].
  split; [rewrite Hpa; reflexivity |].
  split; symmetry; assumption.
Qed.

(** C8: for a valid date, [minutesSinceMidnight] is an integer of
    [0, 1439], and pushing a trip at that index of a 1440-slot bucket array
    succeeds and leaves 1440 slots; for a filter value of the documented
    range [-1, 1440], the two bounds [filterByMinute] slices with are in
    [0, 1439], and so is every slot of the window. *)
Theorem C8_bucket_indices_in_bounds
    (t : Z) (m : Z) (buckets : list (list Trip)) (trip : Trip) :
  (-1 <= m <= 1440)%Z ->
  length buckets = 1440 ->
  (exists k : Z,
      minutesSinceMidnight LocalTZA (TimeValue t) = Int k
      /\ (0 <= k <= 1439)%Z
      /\ exists buckets',
           push_at buckets (Int k) trip = Normal buckets'
           /\ length buckets' = 1440)
  /\ (0 <= minMinute_of m <= 1439)%Z
  /\ (0 <= maxMinute_of m <= 1439)%Z
  /\ (forall i, i ∈ window 60 m -> (0 <= i <= 1439)%Z).
Proof.
  intros Hm Hlen.
  split; [| split; [| split]].
  - destruct (minutesSinceMidnight_TimeValue LocalTZA t) as [k [Hk Hrange]].
    exists k. split; [exact Hk |]. split; [exact Hrange |].
    destruct (lookup_lt_is_Some_2 buckets (Z.to_nat k)) as [b Hb]; [lia |].
    exists (<[Z.to_nat k := b ++ [trip]]> buckets).
    split; [| rewrite length_insert; exact Hlen].
    rewrite <- (Z2Nat.id k) at 1 by lia. apply push_at_slot, Hb.
  - rewrite minMinute_mod by lia.
    pose proof (Z.mod_pos_bound (m - 60 + 1440) 1440 ltac:(lia)). lia.
  - rewrite maxMinute_mod by lia.
    pose proof (Z.mod_pos_bound (m + 60) 1440 ltac:(lia)). lia.
  - intros i. apply window_in_bounds.
Qed.

(** C9: with a center minute as filter, the two count maps depend only on
    the bucket arrays and the filter value: two states with the same
    buckets give the same maps, whatever their other variables hold.
    Setting the filter leaves the buckets as they were, so asking again,
    also after other filter values were asked for in between, gives the
    same maps. *)
Theorem C9_aggregation_is_deterministic s1 s2 (m : Z) :
  departuresByMinute s1 = departuresByMinute s2 ->
  arrivalsByMinute s1 = arrivalsByMinute s2 ->
  m <> (-1)%Z ->
  filteredDepartures (set_timeFilter m s1) = filteredDepartures (set_timeFilter m s2)
  /\ filteredArrivals (set_timeFilter m s1) = filteredArrivals (set_timeFilter m s2)
  /\ departuresByMinute (set_timeFilter m s1) = departuresByMinute s1
  /\ arrivalsByMinute (set_timeFilter m s1) = arrivalsByMinute s1
  /\ (forall m' : Z,
        filteredDepartures (set_timeFilter m (set_timeFilter m' (set_timeFilter m s1)))
        = filteredDepartures (set_timeFilter m s1)
        /\ filteredArrivals (set_timeFilter m (set_timeFilter m' (set_timeFilter m s1)))
           = filteredArrivals (set_timeFilter m s1)).
Proof.
  intros Hdep Harr Hm.
  unfold filteredDepartures, filteredArrivals, filterByMinute. simpl.
  destruct (Z.eqb_spec m (-1)); [contradiction |].
  rewrite Hdep, Harr. repeat split; reflexivity.
Qed.

End EngineTheorems.

Section FilterRangeTheorems.

(** C6, with what the code does in place of rejecting: for a filter value
    outside [-1, 1440], [filterByMinute] reports no error. It completes
    normally with a list of trips; for a value [m] from -60 upwards with
    [m + 1380 <= MAX_SAFE_INTEGER], so that the sums of lines 64-65 are
    exact, and a 1440-slot bucket array, that list is the window of the
    value taken modulo 1440. *)
Theorem C6_out_of_range_filter_not_rejected
    (trips : list Trip) (tripsByMinute : list (list Trip)) (m : Z) :
  (m < -1 \/ 1440 < m)%Z ->
  length tripsByMinute = 1440 ->
  (exists selected, filterByMinute_call trips tripsByMinute m = Normal selected)
  /\ (forall e, filterByMinute_call trips tripsByMinute m <> Throw e)
  /\ ((-60 <= m)%Z -> (m + 1380 <= MAX_SAFE_INTEGER)%Z ->
      filterByMinute trips tripsByMinute m
      = bucketsAt tripsByMinute (window 60 (m mod 1440))).
Proof.
  intros Hout Hlen.
  split; [eexists; reflexivity |].
  split; [intros e; discriminate |].
  intros Hge _. rewrite window_mod.
  apply filterByMinute_window; [exact Hlen | exact Hge | lia].
Qed.

End FilterRangeTheorems.

(** * The theorems on the sample data *)

Lemma Sample_rows_valid : Forall (validRow Sample.parse) Sample.rows.
Proof. repeat constructor; vm_compute; discriminate. Defined.

Lemma C1_window_witness :
  (0 <= 0 <= 1439)%Z
  /\ length (Sample.oneTripAt 30) = 1440
  /\ filterByMinute [] (Sample.oneTripAt 30) 0
     = bucketsAt (Sample.oneTripAt 30) (minuteRange 1380 1439 ++ minuteRange 0 60)
  /\ length (minuteRange 1380 1439 ++ minuteRange 0 60) = 121.
Proof.
  pose proof (C1_window_has_121_distinct_slots [] (Sample.oneTripAt 30) 0
                ltac:(lia) eq_refl) as (_ & _ & Hsel & Hlen & _).
  split; [lia |]. split; [reflexivity |]. split; [exact Hsel | exact Hlen].
Defined.

(** C2, as stated, fails at center 1439: a trip in slot 60 is in
    [1379 .. 1439] with [0 .. 60] but is not selected. *)
Lemma C2_counterexample :
  length (Sample.oneTripAt 60) = 1440
  /\ filterByMinute [] (Sample.oneTripAt 60) 1439 = []
  /\ bucketsAt (Sample.oneTripAt 60) (minuteRange 1379 1439 ++ minuteRange 0 60)
     = [toTrip Sample.parse Sample.row1]
  /\ filterByMinute [] (Sample.oneTripAt 60) 1439
     <> bucketsAt (Sample.oneTripAt 60) (minuteRange 1379 1439 ++ minuteRange 0 60).
Proof.
  split; [reflexivity |]. split; [vm_compute; reflexivity |].
  split; [vm_compute; reflexivity |]. vm_compute. discriminate.
Qed.

Lemma C2_boundary_witness :
  length (Sample.oneTripAt 59) = 1440
  /\ filterByMinute [] (Sample.oneTripAt 59) 1439
     = bucketsAt (Sample.oneTripAt 59) (minuteRange 1379 1439 ++ minuteRange 0 59).
Proof.
  split; [reflexivity |].
  exact (proj2 (C2_boundary_windows [] (Sample.oneTripAt 59) eq_refl)).
Defined.

Lemma C3_buckets_witness :
  Forall (validRow Sample.parse) Sample.rows
  /\ departuresByMinute Sample.registry = emptyBuckets
  /\ arrivalsByMinute Sample.registry = emptyBuckets
  /\ sum_list_with length (departuresByMinute (Sample.loaded Sample.rows)) = 3
  /\ sum_list_with length (arrivalsByMinute (Sample.loaded Sample.rows)) = 3.
Proof.
  pose proof (C3_each_trip_in_one_bucket Sample.tz Sample.parse Sample.rows
                Sample.registry Sample_rows_valid eq_refl eq_refl)
    as (_ & _ & _ & _ & _ & _ & _ & Hd & Ha).
  split; [exact Sample_rows_valid |]. split; [reflexivity |].
  split; [reflexivity |]. split; [exact Hd | exact Ha].
Defined.

Lemma C4_record_witness :
  [Sample.stationA; Sample.stationB] !! 1 = Some Sample.stationB
  /\ length (trafficView [Sample.stationA; Sample.stationB]
               (filteredArrivals (Sample.loaded Sample.rows))
               (filteredDepartures (Sample.loaded Sample.rows))) = 2.
Proof.
  split; [reflexivity |].
  exact (proj1 (C4_one_traffic_record_per_station
                  [Sample.stationA; Sample.stationB]
                  (filteredArrivals (Sample.loaded Sample.rows))
                  (filteredDepartures (Sample.loaded Sample.rows))
                  1 Sample.stationB eq_refl)).
Defined.

Lemma C5_unfiltered_witness :
  Forall (validRow Sample.parse) Sample.rows
  /\ departuresByMinute Sample.registry = emptyBuckets
  /\ arrivalsByMinute Sample.registry = emptyBuckets
  /\ filteredDepartures (set_timeFilter (-1) (Sample.loaded Sample.rows))
     = d3_rollup
         (flat (departuresByMinute (set_timeFilter (-1) (Sample.loaded Sample.rows))))
         (fun v => length v) start_station_id.
Proof.
  split; [exact Sample_rows_valid |]. split; [reflexivity |].
  split; [reflexivity |].
  exact (proj1 (C5_unfiltered_equals_all_buckets Sample.tz Sample.parse
                  Sample.rows Sample.registry Sample_rows_valid eq_refl eq_refl)).
Defined.

(** C6, as stated, fails at the filter value 2000: the call returns the
    trip of slot 560. *)
Lemma C6_counterexample :
  (1440 < 2000)%Z
  /\ length (Sample.oneTripAt 560) = 1440
  /\ filterByMinute_call [] (Sample.oneTripAt 560) 2000
     = Normal [toTrip Sample.parse Sample.row1]
  /\ ~ (exists e, filterByMinute_call [] (Sample.oneTripAt 560) 2000 = Throw e).
Proof.
  split; [lia |]. split; [reflexivity |]. split; [vm_compute; reflexivity |].
  intros [e He]. discriminate He.
Qed.

Lemma C6_out_of_range_witness :
  (2000 < -1 \/ 1440 < 2000)%Z
  /\ length (Sample.oneTripAt 560) = 1440
  /\ (-60 <= 2000)%Z
  /\ (2000 + 1380 <= MAX_SAFE_INTEGER)%Z
  /\ (exists selected,
        filterByMinute_call [] (Sample.oneTripAt 560) 2000 = Normal selected)
  /\ filterByMinute [] (Sample.oneTripAt 560) 2000
     = bucketsAt (Sample.oneTripAt 560) (window 60 (2000 mod 1440)).
Proof.
  assert (Hsafe : (2000 + 1380 <= MAX_SAFE_INTEGER)%Z)
    by (unfold MAX_SAFE_INTEGER; lia).
  pose proof (C6_out_of_range_filter_not_rejected [] (Sample.oneTripAt 560) 2000
                ltac:(lia) eq_refl) as (Hnormal & _ & Hwindow).
  split; [lia |]. split; [reflexivity |]. split; [lia |].
  split; [exact Hsafe |]. split; [exact Hnormal |].
  exact (Hwindow ltac:(lia) Hsafe).
Defined.

Lemma Sample_X_unknown :
  forall station : @Station Z,
    station ∈ [Sample.stationA; Sample.stationB] -> id station <> "X".
Proof.
  intros station Hin. apply list_elem_of_In in Hin. simpl in Hin.
  destruct Hin as [<- | [<- | []]]; discriminate.
Defined.

Lemma C8_in_bounds_witness :
  (-1 <= 1440 <= 1440)%Z
  /\ length (Sample.oneTripAt 0) = 1440
  /\ (0 <= minMinute_of 1440 <= 1439)%Z
  /\ (0 <= maxMinute_of 1440 <= 1439)%Z.
Proof.
  pose proof (C8_bucket_indices_in_bounds Sample.tz 29100000 1440
                (Sample.oneTripAt 0) (toTrip Sample.parse Sample.row1)
                ltac:(lia) eq_refl) as (_ & Hmin & Hmax & _).
  split; [lia |]. split; [reflexivity |]. split; [exact Hmin | exact Hmax].
Defined.

Lemma C9_deterministic_witness :
  departuresByMinute Sample.quiet = departuresByMinute Sample.busy
  /\ arrivalsByMinute Sample.quiet = arrivalsByMinute Sample.busy
  /\ 480%Z <> (-1)%Z
  /\ filteredDepartures (set_timeFilter 480 Sample.quiet)
     = filteredDepartures (set_timeFilter 480 Sample.busy).
Proof.
  split; [reflexivity |]. split; [reflexivity |]. split; [lia |].
  exact (proj1 (C9_aggregation_is_deterministic Sample.quiet Sample.busy
                  480 eq_refl eq_refl ltac:(lia))).
Defined.

Lemma C10_filter_1440_witness :
  length (Sample.oneTripAt 60) = 1440
  /\ filterByMinute_call [] (Sample.oneTripAt 60) 1440
     = filterByMinute_call [] (Sample.oneTripAt 60) 0.
Proof.
  split; [reflexivity |].
  exact (proj2 (C10_filter_1440_is_center_0 [] (Sample.oneTripAt 60) eq_refl)).
Defined.

(** ** The design's scenario, and a log with an unreadable timestamp *)

(** Three trips, filter center 08:00: departures [A: 1, B: 1], arrivals
    [B: 1]; the 23:50 departure is outside the window. *)
Example scenario_center_0800 :
  filteredDepartures (set_timeFilter 480 (Sample.loaded Sample.rows))
  = {["A" := 1; "B" := 1]}
  /\ filteredArrivals (set_timeFilter 480 (Sample.loaded Sample.rows))
     = {["B" := 1]}.
Proof. split; vm_compute; reflexivity. Qed.

(** Center 23:59 reaches minute 0 and minute 58 through the wrap-around. *)
Example scenario_center_2359 :
  filterByMinute [] (Sample.oneTripAt 0) 1439 = [toTrip Sample.parse Sample.row1]
  /\ filterByMinute [] (Sample.oneTripAt 58) 1439 = [toTrip Sample.parse Sample.row1].
Proof. split; vm_compute; reflexivity. Qed.

(** A row whose time cells are not dates stops the loop with a
    [TypeError], which the [catch] clause absorbs: [trips] stays empty
    while the trip bucketed before it stays in its bucket. The validity
    assumption of the load theorems is therefore needed. *)
Example unreadable_timestamp_stops_load :
  let csv := [Sample.row1; mkRow "A" "B" "soon" "later"; Sample.row2] in
  let s' := Sample.loaded csv in
  fst (loadStationDemand Sample.tz Sample.parse csv Sample.registry) = Normal tt
  /\ trips s' = []
  /\ departuresByMinute s' !! 485 = Some [toTrip Sample.parse Sample.row1]
  /\ sum_list_with length (departuresByMinute s') = 1.
Proof. repeat split; vm_compute; reflexivity. Qed.

(** * Further properties of the load *)

Section MinuteOfDay.

Context (LocalTZA : Z -> Z).

Lemma hours_and_minutes (q : Z) :
  ((q / 60) mod 24 * 60 + q mod 60 = q mod 1440)%Z.
Proof.
  change 1440%Z with (60 * 24)%Z.
  rewrite Z.rem_mul_r by lia. lia.
Qed.

Lemma minutesSinceMidnight_closed (t : Z) :
  minutesSinceMidnight LocalTZA (TimeValue t)
  = Int ((LocalTime LocalTZA t / msPerMinute) mod 1440).
Proof.
  unfold minutesSinceMidnight, getHours, getMinutes, HourFromTime, MinFromTime.
  simpl. f_equal.
  replace (LocalTime LocalTZA t / msPerHour)%Z
    with (LocalTime LocalTZA t / msPerMinute / 60)%Z.
  - apply hours_and_minutes.
  - unfold msPerMinute, msPerHour. rewrite Z.div_div by lia. reflexivity.
Qed.

(** X1: [minutesSinceMidnight] of a valid date is the whole number of
    minutes of its local time, modulo 1440: seconds and milliseconds are cut
    off and the day is dropped, so two dates whose local times differ by
    whole days fall in the same minute slot. *)
Theorem X1_minute_of_day_drops_the_date (t1 t2 days : Z) :
  LocalTime LocalTZA t2 = (LocalTime LocalTZA t1 + days * 86400000)%Z ->
  minutesSinceMidnight LocalTZA (TimeValue t1)
  = Int ((LocalTime LocalTZA t1 / 60000) mod 1440)
  /\ minutesSinceMidnight LocalTZA (TimeValue t2)
     = minutesSinceMidnight LocalTZA (TimeValue t1).
Proof.
  intros Hshift. split; [apply minutesSinceMidnight_closed |].
  rewrite !minutesSinceMidnight_closed, Hshift. f_equal.
  unfold msPerMinute.
  replace (LocalTime LocalTZA t1 + days * 86400000)%Z
    with (LocalTime LocalTZA t1 + (days * 1440) * 60000)%Z by lia.
  rewrite Z.div_add by lia.
  rewrite Z.add_mod, Z.mod_mul, Z.add_0_r, Z.mod_mod by lia. reflexivity.
Qed.

End MinuteOfDay.

Section LoadEdgeCases.

Context (LocalTZA : Z -> Z) (Date_parse : string -> Date) {coord : Type}.
Implicit Types (s : @State coord) (row : Row) (rows : list Row).

(** A row whose start cell is not a date: nothing is pushed. *)
Lemma bucketTrip_bad_start row s :
  Date_parse (row_started_at row) = InvalidDate ->
  bucketTrip LocalTZA Date_parse row s = (Throw TypeError, s).
Proof.
  intros Hstart.
  unfold bucketTrip, mbind, M_bind, bind, departuresByMinute_push.
  simpl. rewrite Hstart. reflexivity.
Qed.

(** A row whose end cell alone is not a date: the departure is pushed
    before the exception. *)
Lemma bucketTrip_bad_end row s :
  Date_parse (row_started_at row) <> InvalidDate ->
  Date_parse (row_ended_at row) = InvalidDate ->
  length (departuresByMinute s) = 1440 ->
  exists (kd : nat) (bd : list Trip),
    departuresByMinute s !! kd = Some bd
    /\ bucketTrip LocalTZA Date_parse row s
       = (Throw TypeError,
          set_departuresByMinute
            (<[kd := bd ++ [toTrip Date_parse row]]> (departuresByMinute s)) s).
Proof.
  intros Hstart Hend Hdep.
  destruct (minutesSinceMidnight_valid LocalTZA _ Hstart) as [kd [Hkd Hkd_lt]].
  destruct (lookup_lt_is_Some_2 (departuresByMinute s) kd) as [bd Hbd]; [lia |].
  exists kd, bd. split; [exact Hbd |].
  unfold bucketTrip, mbind, M_bind, bind, departuresByMinute_push,
    arrivalsByMinute_push.
  simpl. rewrite Hkd, (push_at_slot _ _ _ _ Hbd). simpl.
  rewrite Hend. reflexivity.
Qed.

(** The loop over [good ++ rest] runs [good] first. *)
Lemma bucketTrips_app (good rest : list Row) s :
  bucketTrips LocalTZA Date_parse (good ++ rest) s
  = match bucketTrips LocalTZA Date_parse good s with
    | (Normal done, s1) =>
        match bucketTrips LocalTZA Date_parse rest s1 with
        | (Normal others, s2) => (Normal (done ++ others), s2)
        | (Throw e, s2) => (Throw e, s2)
        end
    | (Throw e, s1) => (Throw e, s1)
    end.
Proof.
  revert s. induction good as [| row good IH]; intros s.
  - simpl. unfold mret, M_ret, ret.
    destruct (bucketTrips LocalTZA Date_parse rest s) as [[others | e] s2];
      reflexivity.
  - simpl. unfold mbind, M_bind, bind.
    destruct (bucketTrip LocalTZA Date_parse row s) as [[trip | e] s1];
      [| reflexivity].
    fold (@bucketTrips LocalTZA Date_parse coord (good ++ rest)).
    fold (@bucketTrips LocalTZA Date_parse coord good).
    rewrite IH. unfold mret, M_ret, ret.
    destruct (bucketTrips LocalTZA Date_parse good s1) as [[done | e] s2];
      [| reflexivity].
    destruct (bucketTrips LocalTZA Date_parse rest s2) as [[others | e] s3];
      reflexivity.
Qed.

(** X2: a trip file whose first unreadable row comes after the readable
    rows [good]: the exception is absorbed, so the load completes, and
    [stations], [trips], the two count maps and the filter are as before;
    but the buckets are not: they have gained the trips of [good], and the
    departure buckets also the unreadable row when only its end cell is
    unreadable. *)
Theorem X2_failed_load_keeps_partial_buckets
    (good rest : list Row) (bad : Row) s :
  Forall (validRow Date_parse) good ->
  ~ validRow Date_parse bad ->
  length (departuresByMinute s) = 1440 ->
  length (arrivalsByMinute s) = 1440 ->
  let s' := snd (loadStationDemand LocalTZA Date_parse (good ++ bad :: rest) s) in
  fst (loadStationDemand LocalTZA Date_parse (good ++ bad :: rest) s) = Normal tt
  /\ stations s' = stations s
  /\ trips s' = trips s
  /\ departures s' = departures s
  /\ arrivals s' = arrivals s
  /\ timeFilter s' = timeFilter s
  /\ length (departuresByMinute s') = 1440
  /\ length (arrivalsByMinute s') = 1440
  /\ flat (departuresByMinute s')
     ≡ₚ flat (departuresByMinute s) ++ map (toTrip Date_parse) good
        ++ (if decide (Date_parse (row_started_at bad) = InvalidDate)
            then [] else [toTrip Date_parse bad])
  /\ flat (arrivalsByMinute s')
     ≡ₚ flat (arrivalsByMinute s) ++ map (toTrip Date_parse) good.
Proof.
  intros Hgood Hbad Hdep Harr s'.
  destruct (bucketTrips_valid LocalTZA Date_parse good s Hgood Hdep Harr)
    as (dep & arr & Hloop & Hldep & Hlarr & _ & _ & Hpd & Hpa).
  set (s1 := set_arrivalsByMinute arr (set_departuresByMinute dep s)) in *.
  assert (Hthrow : exists dep',
    bucketTrips LocalTZA Date_parse (bad :: rest) s1
    = (Throw TypeError, set_departuresByMinute dep' s1)
    /\ length dep' = 1440
    /\ concat dep'
       ≡ₚ concat dep
          ++ (if decide (Date_parse (row_started_at bad) = InvalidDate)
              then [] else [toTrip Date_parse bad])).
  { destruct (decide (Date_parse (row_started_at bad) = InvalidDate))
      as [Hstart | Hstart].
    - exists dep. split; [| split; [exact Hldep | rewrite app_nil_r; reflexivity]].
      simpl. unfold mbind, M_bind, bind.
      rewrite (bucketTrip_bad_start bad s1 Hstart). destruct s; reflexivity.
    - assert (Hend : Date_parse (row_ended_at bad) = InvalidDate).
      { destruct (decide (Date_parse (row_ended_at bad) = InvalidDate))
          as [He | He]; [exact He |].
        exfalso. apply Hbad. split; assumption. }
      destruct (bucketTrip_bad_end bad s1 Hstart Hend) as (kd & bd & Hbd & Hstep).
      { exact Hldep. }
      simpl in Hbd.
      exists (<[kd := bd ++ [toTrip Date_parse bad]]> dep).
      split; [| split].
      + simpl. unfold mbind, M_bind, bind. rewrite Hstep. reflexivity.
      + rewrite length_insert. exact Hldep.
      + rewrite (concat_push _ _ _ _ Hbd).
        apply Permutation_cons_append. }
  destruct Hthrow as (dep' & Hrest & Hldep' & Hpd').
  assert (Hload : loadStationDemand LocalTZA Date_parse (good ++ bad :: rest) s
                  = (Normal tt, set_departuresByMinute dep' s1)).
  { unfold loadStationDemand, try_catch, mbind, M_bind, bind.
    rewrite bucketTrips_app, Hloop, Hrest. reflexivity. }
  subst s'. rewrite Hload. simpl. unfold flat.
  repeat (split; [reflexivity || assumption |]).
  split.
  - rewrite Hpd', Hpd, <- app_assoc. reflexivity.
  - exact Hpa.
Qed.

(** X3: loading readable rows into buckets that already hold trips
    completes and does not empty them: [trips] and the two count maps are
    replaced by those of the new rows, while bucket [k] keeps what it held
    and gains, in order, the new trips of minute [k]. *)
Theorem X3_load_appends_to_buckets rows s :
  Forall (validRow Date_parse) rows ->
  length (departuresByMinute s) = 1440 ->
  length (arrivalsByMinute s) = 1440 ->
  let loaded := map (toTrip Date_parse) rows in
  let s' := snd (loadStationDemand LocalTZA Date_parse rows s) in
  fst (loadStationDemand LocalTZA Date_parse rows s) = Normal tt
  /\ trips s' = loaded
  /\ departures s' = d3_rollup loaded (fun v => length v) start_station_id
  /\ arrivals s' = d3_rollup loaded (fun v => length v) end_station_id
  /\ (forall (k : nat) (old : list Trip),
        departuresByMinute s !! k = Some old ->
        departuresByMinute s' !! k
        = Some (old ++ filter (fun t => minutesSinceMidnight LocalTZA (started_at t)
                                        = Int (Z.of_nat k)) loaded))
  /\ (forall (k : nat) (old : list Trip),
        arrivalsByMinute s !! k = Some old ->
        arrivalsByMinute s' !! k
        = Some (old ++ filter (fun t => minutesSinceMidnight LocalTZA (ended_at t)
                                        = Int (Z.of_nat k)) loaded))
  /\ length (flat (departuresByMinute s'))
     = length (flat (departuresByMinute s)) + length rows
  /\ length (flat (arrivalsByMinute s'))
     = length (flat (arrivalsByMinute s)) + length rows.
Proof.
  intros Hrows Hdep Harr loaded s'.
  destruct (bucketTrips_valid LocalTZA Date_parse rows s Hrows Hdep Harr)
    as (dep & arr & Hloop & Hldep & Hlarr & Hd & Ha & Hpd & Hpa).
  assert (Hload : loadStationDemand LocalTZA Date_parse rows s
          = storeDemand loaded
              (set_arrivalsByMinute arr (set_departuresByMinute dep s))).
  { unfold loadStationDemand, try_catch, mbind, M_bind, bind.
    rewrite Hloop. reflexivity. }
  subst s'. rewrite Hload. simpl. unfold flat.
  repeat (split; [reflexivity |]).
  split; [| split; [| split]].
  - intros k old Hold. rewrite Hd, Hold. reflexivity.
  - intros k old Hold. rewrite Ha, Hold. reflexivity.
  - rewrite Hpd, length_app. subst loaded. rewrite length_map. reflexivity.
  - rewrite Hpa, length_app. subst loaded. rewrite length_map. reflexivity.
Qed.

End LoadEdgeCases.

(** * The window, read as a time interval *)

Section FilterFacts.

Context {A : Type}.
Implicit Types (l : list A).

Lemma filter_none (P : A -> Prop) `{!forall x, Decision (P x)} l :
  (forall x, x ∈ l -> ~ P x) -> filter P l = [].
Proof.
  induction l as [| x l IH]; intros Hnone.
  - reflexivity.
  - rewrite filter_cons_False by (apply Hnone; left).
    apply IH. intros y Hy. apply Hnone. right. exact Hy.
Qed.

Lemma filter_either (P Q : A -> Prop)
    `{!forall x, Decision (P x)} `{!forall x, Decision (Q x)} l :
  (forall x, P x -> Q x -> False) ->
  filter P l ++ filter Q l ≡ₚ filter (fun x => P x \/ Q x) l.
Proof.
  intros Hdisjoint. induction l as [| x l IH].
  - reflexivity.
  - destruct (decide (P x)) as [HP | HP]; destruct (decide (Q x)) as [HQ | HQ].
    + destruct (Hdisjoint x HP HQ).
    + rewrite (filter_cons_True P) by exact HP.
      rewrite (filter_cons_False Q) by exact HQ.
      rewrite (filter_cons_True (fun x => P x \/ Q x)) by (left; exact HP).
      simpl. rewrite IH. reflexivity.
    + rewrite (filter_cons_False P) by exact HP.
      rewrite (filter_cons_True Q) by exact HQ.
      rewrite (filter_cons_True (fun x => P x \/ Q x)) by (right; exact HQ).
      rewrite <- IH. symmetry. apply Permutation_middle.
    + rewrite (filter_cons_False P) by exact HP.
      rewrite (filter_cons_False Q) by exact HQ.
      rewrite (filter_cons_False (fun x => P x \/ Q x)) by tauto.
      exact IH.
Qed.

(** Buckets keyed by slot, collected over distinct slots, are the values
    whose slot is among them. *)
Lemma slots_collect (g : A -> number) (slots : list Z) l :
  NoDup slots ->
  concat (map (fun i => filter (fun x => g x = Int i) l) slots)
  ≡ₚ filter (fun x => g x ∈ map Int slots) l.
Proof.
  induction 1 as [| i slots Hi Hnodup IH].
  - simpl. rewrite (filter_none (fun x => g x ∈ [])); [reflexivity |].
    intros x _ Hx. inversion Hx.
  - simpl. rewrite IH.
    rewrite (filter_either (fun x => g x = Int i) (fun x => g x ∈ map Int slots)).
    + erewrite list_filter_iff; [reflexivity |].
      intros x. simpl. rewrite elem_of_cons. reflexivity.
    + intros x Heq Hin. rewrite Heq in Hin.
      apply list_elem_of_fmap in Hin. destruct Hin as [j [Hj Hin]].
      injection Hj as ->. contradiction.
Qed.

Lemma countKey_filter_le (key : A -> string) (k : string) (P : A -> Prop)
    `{!forall x, Decision (P x)} l :
  countKey key k (filter P l) <= countKey key k l.
Proof.
  unfold countKey. induction l as [| x l IH].
  - reflexivity.
  - destruct (decide (P x)) as [HP | HP].
    + rewrite (filter_cons_True P) by exact HP.
      destruct (decide (key x = k)) as [Hk | Hk].
      * rewrite !(filter_cons_True (fun v => key v = k)) by exact Hk.
        simpl. lia.
      * rewrite !(filter_cons_False (fun v => key v = k)) by exact Hk.
        exact IH.
    + rewrite (filter_cons_False P) by exact HP.
      destruct (decide (key x = k)) as [Hk | Hk].
      * rewrite (filter_cons_True (fun v => key v = k) x l) by exact Hk.
        simpl. lia.
      * rewrite (filter_cons_False (fun v => key v = k) x l) by exact Hk.
        exact IH.
Qed.

Lemma d3_rollup_count_default (key : A -> string) (k : string) l :
  default 0 (d3_rollup l (fun v => length v) key !! k) = countKey key k l.
Proof.
  rewrite d3_rollup_count_lookup. case_decide; simpl; lia.
Qed.

End FilterFacts.

Section WindowByTime.

Context (LocalTZA : Z -> Z) (Date_parse : string -> Date) {coord : Type}.
Implicit Types (s : @State coord) (row : Row) (rows : list Row).

Lemma in_window_near (m k : Z) :
  (0 <= m <= 1439)%Z -> (0 <= k <= 1439)%Z ->
  k ∈ window 60 m <-> nearMinute m k = true.
Proof.
  intros Hm Hk.
  destruct (window_slots m Hm) as (_ & _ & _ & Hslots).
  rewrite Hslots. unfold nearMinute. cbv zeta.
  rewrite orb_true_iff, Z.leb_le, Z.leb_le.
  pose proof (Z.mod_pos_bound (k - m) 1440 ltac:(lia)) as Hbound.
  split.
  - intros [d [Hd ->]].
    rewrite Zminus_mod_idemp_l.
    replace (m + d - m)%Z with d by lia.
    destruct (Z.le_gt_cases 0 d).
    + left. rewrite Z.mod_small by lia. lia.
    + right. rewrite <- (Z_mod_plus_full d 1 1440).
      rewrite Z.mod_small by lia. lia.
  - intros [Hnear | Hnear].
    + exists ((k - m) mod 1440)%Z. split; [lia |].
      rewrite Zplus_mod_idemp_r.
      replace (m + (k - m))%Z with k by lia.
      rewrite Z.mod_small by lia. reflexivity.
    + exists ((k - m) mod 1440 - 1440)%Z. split; [lia |].
      replace (m + ((k - m) mod 1440 - 1440))%Z
        with (m + (k - m) mod 1440 + (-1) * 1440)%Z by lia.
      rewrite Z_mod_plus_full, Zplus_mod_idemp_r.
      replace (m + (k - m))%Z with k by lia.
      rewrite Z.mod_small by lia. reflexivity.
Qed.

Lemma minute_in_window (m : Z) (date : Date) :
  (0 <= m <= 1439)%Z ->
  minutesSinceMidnight LocalTZA date ∈ map Int (window 60 m)
  <-> match minutesSinceMidnight LocalTZA date with
      | Int k => nearMinute m k
      | NaN => false
      end = true.
Proof.
  intros Hm. destruct date as [| t].
  - simpl. split; [| discriminate].
    intros Hin. apply list_elem_of_fmap in Hin.
    destruct Hin as [j [Hj _]]. discriminate Hj.
  - destruct (minutesSinceMidnight_TimeValue LocalTZA t) as [k [Hk Hrange]].
    rewrite Hk. rewrite <- (in_window_near m k Hm Hrange). split.
    + intros Hin. apply list_elem_of_fmap in Hin.
      destruct Hin as [j [Hj Hin]]. injection Hj as ->. exact Hin.
    + intros Hin. apply list_elem_of_fmap. exists k. split; [reflexivity | exact Hin].
Qed.

(** Buckets that hold under [k] the values of minute [k], collected over
    the window of [m]. *)
Lemma window_collects (g : Trip -> Date) (buckets : list (list Trip))
    (l : list Trip) (m : Z) :
  (0 <= m <= 1439)%Z ->
  (forall k : nat, k < 1440 ->
     buckets !! k
     = Some (filter (fun t => minutesSinceMidnight LocalTZA (g t)
                              = Int (Z.of_nat k)) l)) ->
  bucketsAt buckets (window 60 m)
  ≡ₚ filter (fun t => match minutesSinceMidnight LocalTZA (g t) with
                      | Int k => nearMinute m k
                      | NaN => false
                      end = true) l.
Proof.
  intros Hm Hbuckets.
  destruct (window_slots m Hm) as (_ & Hnodup & Hrange & _).
  unfold bucketsAt, flat.
  rewrite (map_ext_in _
             (fun i => filter (fun t => minutesSinceMidnight LocalTZA (g t) = Int i) l)).
  - rewrite (slots_collect (fun t => minutesSinceMidnight LocalTZA (g t)))
      by exact Hnodup.
    erewrite list_filter_iff; [reflexivity |].
    intros t. apply minute_in_window, Hm.
  - intros i Hi. apply list_elem_of_In in Hi. apply Hrange in Hi.
    rewrite Hbuckets by lia. simpl. rewrite Z2Nat.id by lia. reflexivity.
Qed.

(** X4: once a trip file of readable rows has been loaded into empty
    buckets, a center minute [m] of [0, 1439] selects, up to order, the
    trips that start within 60 minutes of [m] round the clock from the
    departure buckets, and those that end within 60 minutes of [m] from the
    arrival buckets; the two filtered count maps count exactly these. *)
Theorem X4_filter_selects_trips_within_the_hour rows s (m : Z) :
  Forall (validRow Date_parse) rows ->
  departuresByMinute s = emptyBuckets ->
  arrivalsByMinute s = emptyBuckets ->
  (0 <= m <= 1439)%Z ->
  let s' := set_timeFilter m
              (snd (loadStationDemand LocalTZA Date_parse rows s)) in
  filterByMinute (trips s') (departuresByMinute s') m
  ≡ₚ filter (fun t => startsNear LocalTZA m t = true) (trips s')
  /\ filterByMinute (trips s') (arrivalsByMinute s') m
     ≡ₚ filter (fun t => endsNear LocalTZA m t = true) (trips s')
  /\ filteredDepartures s'
     = d3_rollup (filter (fun t => startsNear LocalTZA m t = true) (trips s'))
         (fun v => length v) start_station_id
  /\ filteredArrivals s'
     = d3_rollup (filter (fun t => endsNear LocalTZA m t = true) (trips s'))
         (fun v => length v) end_station_id.
Proof.
  intros Hrows Hdep Harr Hm s'.
  destruct (loadStationDemand_valid LocalTZA Date_parse rows s Hrows Hdep Harr)
    as (_ & Htrips & _ & _ & _ & Hldep & Hlarr & Hd & Ha & _ & _).
  assert (Hsel_d : filterByMinute (trips s') (departuresByMinute s') m
                   ≡ₚ filter (fun t => startsNear LocalTZA m t = true) (trips s')).
  { subst s'. simpl. rewrite filterByMinute_window by (exact Hldep || lia).
    rewrite Htrips. apply (window_collects started_at); [exact Hm | exact Hd]. }
  assert (Hsel_a : filterByMinute (trips s') (arrivalsByMinute s') m
                   ≡ₚ filter (fun t => endsNear LocalTZA m t = true) (trips s')).
  { subst s'. simpl. rewrite filterByMinute_window by (exact Hlarr || lia).
    rewrite Htrips. apply (window_collects ended_at); [exact Hm | exact Ha]. }
  split; [exact Hsel_d |]. split; [exact Hsel_a |].
  unfold filteredDepartures, filteredArrivals.
  replace (timeFilter s') with m by reflexivity.
  destruct (Z.eqb_spec m (-1)); [lia |].
  split; apply d3_rollup_count_perm; assumption.
Qed.

(** X5: after such a load, no filter value of [0, 1440] makes a count
    larger than the unfiltered one: under every station id the filtered
    departures and arrivals are at most the all-time ones, and so is the
    total traffic of every record of the traffic view. *)
Theorem X5_filtered_counts_at_most_unfiltered rows s (m : Z) :
  Forall (validRow Date_parse) rows ->
  departuresByMinute s = emptyBuckets ->
  arrivalsByMinute s = emptyBuckets ->
  (0 <= m <= 1440)%Z ->
  let loaded := snd (loadStationDemand LocalTZA Date_parse rows s) in
  (forall uid,
      default 0 (filteredDepartures (set_timeFilter m loaded) !! uid)
      <= default 0 (departures loaded !! uid)
      /\ default 0 (filteredArrivals (set_timeFilter m loaded) !! uid)
         <= default 0 (arrivals loaded !! uid))
  /\ (forall i r r0,
        filteredStations (set_timeFilter m loaded) !! i = Some r ->
        filteredStations (set_timeFilter (-1) loaded) !! i = Some r0 ->
        id r = id r0 /\ totalTraffic r <= totalTraffic r0).
Proof.
  intros Hrows Hdep Harr Hm loaded.
  destruct (loadStationDemand_valid LocalTZA Date_parse rows s Hrows Hdep Harr)
    as (_ & Htrips & Hdmap & Hamap & _ & Hldep & Hlarr & Hd & Ha & _ & _).
  fold loaded in Htrips, Hdmap, Hamap, Hldep, Hlarr, Hd, Ha.
  set (c := if (m =? 1440)%Z then 0%Z else m).
  assert (Hc : (0 <= c <= 1439)%Z) by (subst c; destruct (Z.eqb_spec m 1440); lia).
  assert (Hsame : forall buckets,
            filterByMinute (trips loaded) buckets m
            = filterByMinute (trips loaded) buckets c).
  { intros buckets. subst c. destruct (Z.eqb_spec m 1440) as [-> |];
      [apply filterByMinute_1440 | reflexivity]. }
  assert (Hcounts : forall uid,
      default 0 (filteredDepartures (set_timeFilter m loaded) !! uid)
      <= default 0 (departures loaded !! uid)
      /\ default 0 (filteredArrivals (set_timeFilter m loaded) !! uid)
         <= default 0 (arrivals loaded !! uid)).
  { intros uid. unfold filteredDepartures, filteredArrivals. simpl.
    destruct (Z.eqb_spec m (-1)); [lia |].
    rewrite !Hsame, Hdmap, Hamap, !d3_rollup_count_default.
    rewrite !filterByMinute_window by (assumption || lia).
    rewrite (countKey_perm _ _ _ _
               (window_collects started_at _ _ c Hc Hd)).
    rewrite (countKey_perm _ _ _ _
               (window_collects ended_at _ _ c Hc Ha)).
    split; apply countKey_filter_le. }
  split; [exact Hcounts |].
  intros i r r0 Hr Hr0. unfold filteredStations, trafficView in Hr, Hr0.
  rewrite list_lookup_fmap in Hr, Hr0. simpl in Hr, Hr0.
  destruct (stations loaded !! i) as [station |]; [| discriminate].
  simpl in Hr, Hr0. injection Hr as <-. injection Hr0 as <-.
  split; [reflexivity |]. simpl.
  destruct (Hcounts (id station)) as [Hdle Hale].
  change (filteredDepartures (set_timeFilter (-1) loaded)) with (departures loaded).
  change (filteredArrivals (set_timeFilter (-1) loaded)) with (arrivals loaded).
  lia.
Qed.

End WindowByTime.

(** * The count maps and the traffic view *)

Section CountMaps.

Context {A : Type}.
Implicit Types (values : list A) (key : A -> string).

(** One more value adds one to the count under its key. *)
Lemma d3_rollup_snoc values key (v : A) :
  d3_rollup (values ++ [v]) (fun g => length g) key
  = <[key v := S (default 0 (d3_rollup values (fun g => length g) key !! key v))]>
      (d3_rollup values (fun g => length g) key).
Proof.
  unfold d3_rollup, d3_group. rewrite foldl_app. simpl.
  rewrite lookup_fmap.
  destruct (foldl _ ∅ values !! key v) as [group |]; simpl.
  - rewrite fmap_insert, length_app. simpl. f_equal. lia.
  - rewrite fmap_insert. reflexivity.
Qed.

Lemma totalCount_insert (counts : gmap string nat) (k : string) (n : nat) :
  counts !! k = None ->
  totalCount (<[k := n]> counts) = n + totalCount counts.
Proof.
  intros Hk. unfold totalCount.
  rewrite map_fold_insert_L; [reflexivity | | exact Hk].
  intros. lia.
Qed.

Lemma totalCount_bump (counts : gmap string nat) (k : string) :
  totalCount (<[k := S (default 0 (counts !! k))]> counts) = S (totalCount counts).
Proof.
  destruct (counts !! k) as [n |] eqn:Hk; simpl.
  - rewrite <- (insert_delete_id counts k n Hk) at 2.
    rewrite <- insert_delete_eq.
    rewrite !totalCount_insert by apply lookup_delete_eq. lia.
  - rewrite totalCount_insert by exact Hk. lia.
Qed.

(** The counts of a rollup add up to the number of values. *)
Lemma totalCount_rollup values key :
  totalCount (d3_rollup values (fun g => length g) key) = length values.
Proof.
  induction values as [| v values IH] using rev_ind.
  - reflexivity.
  - rewrite d3_rollup_snoc, totalCount_bump, IH, length_app. simpl. lia.
Qed.

Lemma countKey_zero values key (k : string) :
  countKey key k values = 0 <-> forall v, v ∈ values -> key v <> k.
Proof.
  unfold countKey. split.
  - intros Hzero v Hv Hk.
    assert (Hin : v ∈ filter (fun v0 => key v0 = k) values)
      by (apply list_elem_of_filter; split; assumption).
    destruct (filter (fun v0 => key v0 = k) values); [inversion Hin | discriminate].
  - intros Hnone. rewrite (filter_none (fun v => key v = k)); [reflexivity |].
    exact Hnone.
Qed.

End CountMaps.

Section ViewTheorems.

Context (LocalTZA : Z -> Z) (Date_parse : string -> Date) {coord : Type}
        (toNumber : string -> coord).
Implicit Types (s : @State coord) (row : Row) (rows : list Row).

(** What a load of readable rows leaves in the variables. *)
Lemma loadStationDemand_state rows s :
  Forall (validRow Date_parse) rows ->
  length (departuresByMinute s) = 1440 ->
  length (arrivalsByMinute s) = 1440 ->
  exists dep arr,
    loadStationDemand LocalTZA Date_parse rows s
    = (Normal tt,
       {| stations :=
            map (withTraffic
                   (d3_rollup (map (toTrip Date_parse) rows)
                      (fun v => length v) end_station_id)
                   (d3_rollup (map (toTrip Date_parse) rows)
                      (fun v => length v) start_station_id))
                (stations s);
          trips := map (toTrip Date_parse) rows;
          arrivals := d3_rollup (map (toTrip Date_parse) rows)
                        (fun v => length v) end_station_id;
          departures := d3_rollup (map (toTrip Date_parse) rows)
                          (fun v => length v) start_station_id;
          timeFilter := timeFilter s;
          departuresByMinute := dep;
          arrivalsByMinute := arr |})
    /\ length dep = 1440 /\ length arr = 1440.
Proof.
  intros Hrows Hdep Harr.
  destruct (bucketTrips_valid LocalTZA Date_parse rows s Hrows Hdep Harr)
    as (dep & arr & Hloop & Hldep & Hlarr & _).
  exists dep, arr. split; [| split; assumption].
  unfold loadStationDemand, try_catch, mbind, M_bind, bind.
  rewrite Hloop. reflexivity.
Qed.

(** X6: after a load of readable rows the departure counts add up to
    the number of trips, and so do the arrival counts; with a center minute
    as filter, the filtered counts add up to the number of trips selected
    from the buckets. *)
Theorem X6_counts_add_up_to_the_trips rows s (m : Z) :
  Forall (validRow Date_parse) rows ->
  length (departuresByMinute s) = 1440 ->
  length (arrivalsByMinute s) = 1440 ->
  m <> (-1)%Z ->
  let s' := snd (loadStationDemand LocalTZA Date_parse rows s) in
  totalCount (departures s') = length rows
  /\ totalCount (arrivals s') = length rows
  /\ totalCount (filteredDepartures (set_timeFilter m s'))
     = length (filterByMinute (trips s') (departuresByMinute s') m)
  /\ totalCount (filteredArrivals (set_timeFilter m s'))
     = length (filterByMinute (trips s') (arrivalsByMinute s') m).
Proof.
  intros Hrows Hdep Harr Hm s'.
  destruct (loadStationDemand_state rows s Hrows Hdep Harr)
    as (dep & arr & Hload & _).
  subst s'. rewrite Hload. simpl.
  unfold filteredDepartures, filteredArrivals. simpl.
  destruct (Z.eqb_spec m (-1)); [contradiction |].
  rewrite !totalCount_rollup, length_map. repeat split; reflexivity.
Qed.

(** X7: after a load of readable rows, the departures map has an entry
    under a station id exactly when some loaded trip starts there, and the
    entry is the number of such trips, never 0; likewise the arrivals map
    and the trips that end there. *)
Theorem X7_count_maps_hold_positive_counts rows s (uid : string) :
  Forall (validRow Date_parse) rows ->
  length (departuresByMinute s) = 1440 ->
  length (arrivalsByMinute s) = 1440 ->
  let s' := snd (loadStationDemand LocalTZA Date_parse rows s) in
  (departures s' !! uid = None
   <-> forall t, t ∈ trips s' -> start_station_id t <> uid)
  /\ (forall n, departures s' !! uid = Some n ->
        0 < n /\ n = countKey start_station_id uid (trips s'))
  /\ (arrivals s' !! uid = None
      <-> forall t, t ∈ trips s' -> end_station_id t <> uid)
  /\ (forall n, arrivals s' !! uid = Some n ->
        0 < n /\ n = countKey end_station_id uid (trips s')).
Proof.
  intros Hrows Hdep Harr s'.
  destruct (loadStationDemand_state rows s Hrows Hdep Harr)
    as (dep & arr & Hload & _).
  subst s'. rewrite Hload. simpl.
  rewrite !d3_rollup_count_lookup.
  split; [| split; [| split]].
  - rewrite <- countKey_zero. case_decide; split; try done.
  - intros n. case_decide; [discriminate |].
    intros Hn. injection Hn as <-. split; [lia | reflexivity].
  - rewrite <- countKey_zero. case_decide; split; try done.
  - intros n. case_decide; [discriminate |].
    intros Hn. injection Hn as <-. split; [lia | reflexivity].
Qed.

Lemma trafficRecord_withTraffic (arrivalsMap departuresMap : gmap string nat)
    (station : @Station coord) :
  trafficRecord arrivalsMap departuresMap
    (withTraffic arrivalsMap departuresMap station)
  = withTraffic arrivalsMap departuresMap station.
Proof. reflexivity. Qed.

(** X8: after a load of readable rows and with the filter at -1, the
    traffic view is the station list as the load left it: the counts the
    load wrote into the stations are the counts the view shows. *)
Theorem X8_unfiltered_view_is_the_station_list rows s :
  Forall (validRow Date_parse) rows ->
  length (departuresByMinute s) = 1440 ->
  length (arrivalsByMinute s) = 1440 ->
  let s' := snd (loadStationDemand LocalTZA Date_parse rows s) in
  filteredStations (set_timeFilter (-1) s') = stations s'.
Proof.
  intros Hrows Hdep Harr s'.
  destruct (loadStationDemand_state rows s Hrows Hdep Harr)
    as (dep & arr & Hload & _).
  subst s'. rewrite Hload.
  unfold filteredStations, trafficView, filteredArrivals, filteredDepartures.
  simpl. rewrite map_map. apply map_ext. intros station.
  apply trafficRecord_withTraffic.
Qed.


(** ** The domain of the radius scale *)

Lemma d3_max_from {B : Type} (valueof : B -> nat) (values : list B)
    (start : option nat) :
  let result :=
    foldl (fun max value =>
             let v := valueof value in
             match max with
             | None => Some v
             | Some m => if m <? v then Some v else Some m
             end) start values in
  (forall m, start = Some m -> exists M, result = Some M /\ m <= M)
  /\ (forall x, x ∈ values -> exists M, result = Some M /\ valueof x <= M)
  /\ (forall M, result = Some M ->
        start = Some M \/ exists x, x ∈ values /\ valueof x = M)
  /\ (values = [] -> result = start).
Proof.
  revert start. induction values as [| x values IH]; intros start; simpl.
  - split; [| split; [| split]].
    + intros m ->. exists m. split; [reflexivity | lia].
    + intros x Hx. inversion Hx.
    + intros M ->. left. reflexivity.
    + reflexivity.
  - set (next := match start with
                 | Some m => if m <? valueof x then Some (valueof x) else Some m
                 | None => Some (valueof x)
                 end).
    destruct (IH next) as (Hstart & Hin & Hfrom & _).
    assert (Hnext : exists n, next = Some n /\ valueof x <= n
                              /\ (forall m, start = Some m -> m <= n)
                              /\ (start = Some n \/ valueof x = n)).
    { subst next. destruct start as [m |].
      - destruct (Nat.ltb_spec m (valueof x)).
        + exists (valueof x). repeat split; [lia | | right; reflexivity].
          intros m' Hm'. injection Hm' as <-. lia.
        + exists m. repeat split; [lia | | left; reflexivity].
          intros m' Hm'. injection Hm' as <-. lia.
      - exists (valueof x). repeat split; [lia | discriminate | right; reflexivity]. }
    destruct Hnext as (n & Hn & Hxn & Hmn & Horigin).
    split; [| split; [| split]].
    + intros m Hm. destruct (Hstart n Hn) as (M & HM & Hle).
      exists M. split; [exact HM |]. specialize (Hmn m Hm). lia.
    + intros y Hy. apply elem_of_cons in Hy. destruct Hy as [-> | Hy].
      * destruct (Hstart n Hn) as (M & HM & Hle).
        exists M. split; [exact HM | lia].
      * apply Hin, Hy.
    + intros M HM. destruct (Hfrom M HM) as [Hnext | (y & Hy & Hval)].
      * rewrite Hn in Hnext. injection Hnext as <-.
        destruct Horigin as [Hs | Hv]; [left; exact Hs |].
        right. exists x. split; [left | exact Hv].
      * right. exists y. split; [right; exact Hy | exact Hval].
    + discriminate.
Qed.

Lemma or_zero_Some (n : nat) : or_zero (Some n) = n.
Proof. destruct n; reflexivity. Qed.

(** X10: the domain given to the radius scale is [[0, top]], where [top]
    is at least the total traffic of every record of the traffic view, is
    the total traffic of one of them when there is any, and is 0 when
    there is no station. *)
Theorem X10_radius_domain_covers_every_station s :
  fst (filteredRadiusScale_domain s) = 0
  /\ (forall r, r ∈ filteredStations s ->
        totalTraffic r <= snd (filteredRadiusScale_domain s))
  /\ (filteredStations s <> [] ->
      exists r, r ∈ filteredStations s
                /\ totalTraffic r = snd (filteredRadiusScale_domain s))
  /\ (stations s = [] -> snd (filteredRadiusScale_domain s) = 0).
Proof.
  unfold filteredRadiusScale_domain, d3_max. simpl.
  destruct (d3_max_from totalTraffic (filteredStations s) None)
    as (_ & Hin & Hfrom & Hnil).
  cbv zeta in Hin, Hfrom, Hnil.
  split; [reflexivity |]. split; [| split].
  - intros r Hr. destruct (Hin r Hr) as (M & HM & Hle).
    rewrite HM, or_zero_Some. exact Hle.
  - intros Hne. destruct (filteredStations s) as [| r0 rest] eqn:Hview;
      [contradiction |].
    destruct (Hin r0 ltac:(left)) as (M & HM & _).
    destruct (Hfrom M HM) as [Hnone | (r & Hr & Hval)]; [discriminate |].
    exists r. split; [exact Hr |]. rewrite HM, or_zero_Some. exact Hval.
  - intros Hempty. unfold filteredStations, trafficView in Hnil.
    rewrite Hempty in Hnil. simpl in Hnil.
    unfold filteredStations, trafficView. rewrite Hempty. reflexivity.
Qed.

End ViewTheorems.

Section EmptyLog.

Context (LocalTZA : Z -> Z) (Date_parse : string -> Date) {coord : Type}.
Implicit Types (s : @State coord).

Lemma concat_all_empty (buckets : list (list Trip)) :
  Forall (fun b => b = []) buckets -> concat buckets = [].
Proof.
  induction 1 as [| b rest Hb Hrest IH]; simpl.
  - reflexivity.
  - rewrite Hb, IH. reflexivity.
Qed.

Lemma slice_all_empty (buckets : list (list Trip)) (start : Z) (stop : option Z) :
  Forall (fun b => b = []) buckets ->
  Forall (fun b => b = []) (slice buckets start stop).
Proof.
  intros Hall. unfold slice. apply Forall_take, Forall_drop, Hall.
Qed.

(** Buckets that hold no trip give no trip, whatever the center. *)
Lemma filterByMinute_all_empty (buckets : list (list Trip)) (m : Z) :
  Forall (fun b => b = []) buckets ->
  m <> (-1)%Z ->
  filterByMinute [] buckets m = [].
Proof.
  intros Hall Hm. unfold filterByMinute, flat.
  destruct (Z.eqb_spec m (-1)); [contradiction |]. cbv zeta.
  destruct (minMinute_of m >? maxMinute_of m)%Z.
  - apply concat_all_empty, Forall_app. split; apply slice_all_empty, Hall.
  - apply concat_all_empty, slice_all_empty, Hall.
Qed.

Lemma emptyBuckets_all_empty : Forall (fun b : list Trip => b = []) emptyBuckets.
Proof. apply Forall_replicate. reflexivity. Qed.

(** X11: an empty trip file loaded into empty buckets completes, and
    for every filter value, in the slider's range or not, both count maps
    are empty and every record of the traffic view has three zeros. *)
Theorem X11_empty_log_gives_zero_traffic s (m : Z) :
  departuresByMinute s = emptyBuckets ->
  arrivalsByMinute s = emptyBuckets ->
  let s' := set_timeFilter m (snd (loadStationDemand LocalTZA Date_parse [] s)) in
  fst (loadStationDemand LocalTZA Date_parse [] s) = Normal tt
  /\ filteredDepartures s' = ∅
  /\ filteredArrivals s' = ∅
  /\ length (filteredStations s') = length (stations s)
  /\ (forall r, r ∈ filteredStations s' ->
        st_arrivals r = 0 /\ st_departures r = 0 /\ totalTraffic r = 0).
Proof.
  intros Hdep Harr s'.
  assert (Hd : filteredDepartures s' = ∅).
  { subst s'. unfold filteredDepartures. simpl.
    destruct (Z.eqb_spec m (-1)); [reflexivity |].
    rewrite Hdep, filterByMinute_all_empty
      by (apply emptyBuckets_all_empty || assumption).
    reflexivity. }
  assert (Ha : filteredArrivals s' = ∅).
  { subst s'. unfold filteredArrivals. simpl.
    destruct (Z.eqb_spec m (-1)); [reflexivity |].
    rewrite Harr, filterByMinute_all_empty
      by (apply emptyBuckets_all_empty || assumption).
    reflexivity. }
  split; [reflexivity |]. split; [exact Hd |]. split; [exact Ha |].
  unfold filteredStations, trafficView. rewrite Hd, Ha. split.
  - subst s'. simpl. rewrite !length_map. reflexivity.
  - intros r Hr. apply list_elem_of_fmap in Hr. destruct Hr as [station [-> _]].
    simpl. rewrite !lookup_empty. auto.
Qed.

End EmptyLog.

(** * The further properties on the sample data *)

Lemma X1_minute_witness :
  LocalTime Sample.tz 86400000 = (LocalTime Sample.tz 0 + 1 * 86400000)%Z
  /\ minutesSinceMidnight Sample.tz (TimeValue 86400000)
     = minutesSinceMidnight Sample.tz (TimeValue 0).
Proof.
  split; [reflexivity |].
  exact (proj2 (X1_minute_of_day_drops_the_date Sample.tz 0 86400000 1 eq_refl)).
Defined.

Lemma MountSample_lateEnd_unreadable : ~ validRow Sample.parse MountSample.lateEnd.
Proof. intros [_ Hend]. apply Hend. vm_compute. reflexivity. Defined.

Lemma Sample_row1_valid : Forall (validRow Sample.parse) [Sample.row1].
Proof. repeat constructor; vm_compute; discriminate. Defined.

Lemma X2_failed_load_witness :
  Forall (validRow Sample.parse) [Sample.row1]
  /\ ~ validRow Sample.parse MountSample.lateEnd
  /\ length (departuresByMinute Sample.registry) = 1440
  /\ length (arrivalsByMinute Sample.registry) = 1440
  /\ trips (snd (loadStationDemand Sample.tz Sample.parse
                   ([Sample.row1] ++ MountSample.lateEnd :: [Sample.row2])
                   Sample.registry))
     = trips Sample.registry.
Proof.
  pose proof (X2_failed_load_keeps_partial_buckets Sample.tz Sample.parse
                [Sample.row1] [Sample.row2] MountSample.lateEnd Sample.registry
                Sample_row1_valid MountSample_lateEnd_unreadable eq_refl eq_refl)
    as (_ & _ & Htrips & _).
  split; [exact Sample_row1_valid |].
  split; [exact MountSample_lateEnd_unreadable |].
  split; [reflexivity |]. split; [reflexivity | exact Htrips].
Defined.

Lemma X3_load_appends_witness :
  Forall (validRow Sample.parse) Sample.rows
  /\ length (departuresByMinute MountSample.started) = 1440
  /\ length (arrivalsByMinute MountSample.started) = 1440
  /\ length (flat (departuresByMinute
                     (snd (loadStationDemand Sample.tz Sample.parse Sample.rows
                             MountSample.started))))
     = length (flat (departuresByMinute MountSample.started)) + length Sample.rows.
Proof.
  pose proof (X3_load_appends_to_buckets Sample.tz Sample.parse Sample.rows
                MountSample.started Sample_rows_valid eq_refl eq_refl)
    as (_ & _ & _ & _ & _ & _ & Hlen & _).
  split; [exact Sample_rows_valid |]. split; [reflexivity |].
  split; [reflexivity | exact Hlen].
Defined.

Lemma X4_filter_witness :
  Forall (validRow Sample.parse) Sample.rows
  /\ departuresByMinute Sample.registry = emptyBuckets
  /\ arrivalsByMinute Sample.registry = emptyBuckets
  /\ (0 <= 1439 <= 1439)%Z
  /\ filteredDepartures (set_timeFilter 1439 (Sample.loaded Sample.rows))
     = d3_rollup
         (filter (fun t => startsNear Sample.tz 1439 t = true)
            (trips (set_timeFilter 1439 (Sample.loaded Sample.rows))))
         (fun v => length v) start_station_id.
Proof.
  pose proof (X4_filter_selects_trips_within_the_hour Sample.tz Sample.parse
                Sample.rows Sample.registry 1439 Sample_rows_valid
                eq_refl eq_refl ltac:(lia))
    as (_ & _ & Hmap & _).
  split; [exact Sample_rows_valid |]. split; [reflexivity |].
  split; [reflexivity |]. split; [lia | exact Hmap].
Defined.

Lemma X5_at_most_witness :
  Forall (validRow Sample.parse) Sample.rows
  /\ departuresByMinute Sample.registry = emptyBuckets
  /\ arrivalsByMinute Sample.registry = emptyBuckets
  /\ (0 <= 1440 <= 1440)%Z
  /\ default 0 (filteredDepartures
                  (set_timeFilter 1440 (Sample.loaded Sample.rows)) !! "A")
     <= default 0 (departures (Sample.loaded Sample.rows) !! "A").
Proof.
  pose proof (X5_filtered_counts_at_most_unfiltered Sample.tz Sample.parse
                Sample.rows Sample.registry 1440 Sample_rows_valid
                eq_refl eq_refl ltac:(lia))
    as (Hcounts & _).
  split; [exact Sample_rows_valid |]. split; [reflexivity |].
  split; [reflexivity |]. split; [lia | exact (proj1 (Hcounts "A"))].
Defined.

Lemma X6_totals_witness :
  Forall (validRow Sample.parse) Sample.rows
  /\ length (departuresByMinute Sample.registry) = 1440
  /\ length (arrivalsByMinute Sample.registry) = 1440
  /\ 480%Z <> (-1)%Z
  /\ totalCount (departures (Sample.loaded Sample.rows)) = length Sample.rows.
Proof.
  pose proof (X6_counts_add_up_to_the_trips Sample.tz Sample.parse
                Sample.rows Sample.registry 480 Sample_rows_valid
                eq_refl eq_refl ltac:(lia))
    as (Htotal & _).
  split; [exact Sample_rows_valid |]. split; [reflexivity |].
  split; [reflexivity |]. split; [lia | exact Htotal].
Defined.

Lemma X7_positive_counts_witness :
  Forall (validRow Sample.parse) Sample.rows
  /\ length (departuresByMinute Sample.registry) = 1440
  /\ length (arrivalsByMinute Sample.registry) = 1440
  /\ (departures (Sample.loaded Sample.rows) !! "X" = None
      <-> forall t, t ∈ trips (Sample.loaded Sample.rows) ->
                    start_station_id t <> "X").
Proof.
  pose proof (X7_count_maps_hold_positive_counts Sample.tz Sample.parse
                Sample.rows Sample.registry "X" Sample_rows_valid
                eq_refl eq_refl)
    as (Hnone & _).
  split; [exact Sample_rows_valid |]. split; [reflexivity |].
  split; [reflexivity | exact Hnone].
Defined.

Lemma X8_unfiltered_view_witness :
  Forall (validRow Sample.parse) Sample.rows
  /\ length (departuresByMinute Sample.registry) = 1440
  /\ length (arrivalsByMinute Sample.registry) = 1440
  /\ filteredStations (set_timeFilter (-1) (Sample.loaded Sample.rows))
     = stations (Sample.loaded Sample.rows).
Proof.
  split; [exact Sample_rows_valid |]. split; [reflexivity |].
  split; [reflexivity |].
  exact (X8_unfiltered_view_is_the_station_list Sample.tz Sample.parse
           Sample.rows Sample.registry Sample_rows_valid eq_refl eq_refl).
Defined.


Lemma X11_empty_log_witness :
  departuresByMinute Sample.registry = emptyBuckets
  /\ arrivalsByMinute Sample.registry = emptyBuckets
  /\ filteredDepartures
       (set_timeFilter 2000
          (snd (loadStationDemand Sample.tz Sample.parse [] Sample.registry)))
     = ∅.
Proof.
  split; [reflexivity |]. split; [reflexivity |].
  exact (proj1 (proj2 (X11_empty_log_gives_zero_traffic Sample.tz Sample.parse
                         Sample.registry 2000 eq_refl eq_refl))).
Defined.

(** Mounting the sample files: station A has one arrival besides its own
    round trip, station B one of each. *)
Example mount_sample_stations :
  map (fun r : @Station Z => (id r, st_arrivals r, st_departures r, totalTraffic r))
      (stations (snd (onMount Sample.tz Sample.parse MountSample.toNumber MapLoaded
                        MountSample.stationRows Sample.rows Sample.registry)))
  = [("A", 2, 2, 4); ("B", 1, 1, 2)].
Proof. vm_compute. reflexivity. Qed.

(** * A trip at a station the list does not have *)

Section UnknownStation.

Context (LocalTZA : Z -> Z) (Date_parse : string -> Date) {coord : Type}.
Implicit Types (s : @State coord) (row : Row) (rows : list Row).

(** With a center minute as filter, a key of the selection has the count
    of the trips near the center that have it. *)
Lemma filtered_count (g : Trip -> Date) (key : Trip -> string)
    (buckets : list (list Trip)) (l trips : list Trip) (m : Z) (uid : string) :
  (0 <= m <= 1439)%Z ->
  length buckets = 1440 ->
  (forall k : nat, k < 1440 ->
     buckets !! k
     = Some (filter (fun t => minutesSinceMidnight LocalTZA (g t)
                              = Int (Z.of_nat k)) l)) ->
  countKey key uid (filterByMinute trips buckets m)
  = countKey key uid
      (filter (fun t => match minutesSinceMidnight LocalTZA (g t) with
                        | Int k => nearMinute m k
                        | NaN => false
                        end = true) l).
Proof.
  intros Hm Hlen Hbuckets.
  rewrite filterByMinute_window by (exact Hlen || lia).
  apply countKey_perm, (window_collects LocalTZA g); assumption.
Qed.

(** C7: let a trip file of readable rows be loaded into empty buckets, and
    let a loaded trip start (end) at an id [uid] that no station of the
    list has. The load still counts it: the departures (arrivals) map holds
    under [uid] the number of loaded trips that start (end) there, at least
    one; and with a center minute as filter within an hour of the trip's
    start (end), the filtered map holds under [uid] the number of such
    trips that start (end) within the hour, again at least one. But for
    every filter value the traffic view, which runs over the station list,
    has no record with the id [uid]. *)
Theorem C7_unknown_station_counted_not_shown rows s (t : Trip) (uid : string) :
  Forall (validRow Date_parse) rows ->
  departuresByMinute s = emptyBuckets ->
  arrivalsByMinute s = emptyBuckets ->
  (forall station, station ∈ stations s -> id station <> uid) ->
  t ∈ map (toTrip Date_parse) rows ->
  let loaded := snd (loadStationDemand LocalTZA Date_parse rows s) in
  t ∈ trips loaded
  /\ (start_station_id t = uid ->
      departures loaded !! uid
      = Some (countKey start_station_id uid (trips loaded))
      /\ 0 < countKey start_station_id uid (trips loaded))
  /\ (end_station_id t = uid ->
      arrivals loaded !! uid
      = Some (countKey end_station_id uid (trips loaded))
      /\ 0 < countKey end_station_id uid (trips loaded))
  /\ (forall m : Z, (0 <= m <= 1439)%Z ->
        (start_station_id t = uid -> startsNear LocalTZA m t = true ->
         exists n,
           filteredDepartures (set_timeFilter m loaded) !! uid = Some n
           /\ 0 < n
           /\ n = countKey start_station_id uid
                    (filter (fun t' => startsNear LocalTZA m t' = true)
                       (trips loaded)))
        /\ (end_station_id t = uid -> endsNear LocalTZA m t = true ->
            exists n,
              filteredArrivals (set_timeFilter m loaded) !! uid = Some n
              /\ 0 < n
              /\ n = countKey end_station_id uid
                       (filter (fun t' => endsNear LocalTZA m t' = true)
                          (trips loaded))))
  /\ (forall (m : Z) r,
        r ∈ filteredStations (set_timeFilter m loaded) -> id r <> uid).
Proof.
  intros Hrows Hdep Harr Hunknown Hin loaded.
  destruct (loadStationDemand_valid LocalTZA Date_parse rows s Hrows Hdep Harr)
    as (_ & Htrips & Hdmap & Hamap & _ & Hldep & Hlarr & Hd & Ha & _ & _).
  fold loaded in Htrips, Hdmap, Hamap, Hldep, Hlarr, Hd, Ha.
  destruct (loadStationDemand_state LocalTZA Date_parse rows s Hrows)
    as (dep & arr & Hload & _).
  { rewrite Hdep. apply length_emptyBuckets. }
  { rewrite Harr. apply length_emptyBuckets. }
  assert (Hstations : stations loaded
            = map (withTraffic (arrivals loaded) (departures loaded)) (stations s)).
  { subst loaded. rewrite Hload. reflexivity. }
  rewrite Htrips.
  split; [exact Hin |].
  split; [| split; [| split]].
  - intros <-.
    pose proof (countKey_pos start_station_id _ t Hin) as Hpos.
    split; [| exact Hpos].
    rewrite Hdmap, d3_rollup_count_lookup. case_decide; [lia | reflexivity].
  - intros <-.
    pose proof (countKey_pos end_station_id _ t Hin) as Hpos.
    split; [| exact Hpos].
    rewrite Hamap, d3_rollup_count_lookup. case_decide; [lia | reflexivity].
  - intros m Hm. split.
    + intros <- Hnear.
      assert (Hsel : t ∈ filter (fun t' => startsNear LocalTZA m t' = true)
                         (map (toTrip Date_parse) rows))
        by (apply list_elem_of_filter; split; assumption).
      pose proof (countKey_pos start_station_id _ t Hsel) as Hpos.
      eexists. split; [| split; [exact Hpos | reflexivity]].
      unfold filteredDepartures. simpl.
      destruct (Z.eqb_spec m (-1)); [lia |].
      rewrite d3_rollup_count_lookup.
      rewrite (filtered_count started_at start_station_id _
                 (map (toTrip Date_parse) rows) _ m _ Hm Hldep Hd).
      fold (startsNear LocalTZA m).
      case_decide; [unfold startsNear in *; lia | reflexivity].
    + intros <- Hnear.
      assert (Hsel : t ∈ filter (fun t' => endsNear LocalTZA m t' = true)
                         (map (toTrip Date_parse) rows))
        by (apply list_elem_of_filter; split; assumption).
      pose proof (countKey_pos end_station_id _ t Hsel) as Hpos.
      eexists. split; [| split; [exact Hpos | reflexivity]].
      unfold filteredArrivals. simpl.
      destruct (Z.eqb_spec m (-1)); [lia |].
      rewrite d3_rollup_count_lookup.
      rewrite (filtered_count ended_at end_station_id _
                 (map (toTrip Date_parse) rows) _ m _ Hm Hlarr Ha).
      case_decide; [unfold endsNear in *; lia | reflexivity].
  - intros m r Hr. unfold filteredStations, trafficView in Hr. simpl in Hr.
    rewrite Hstations in Hr.
    apply list_elem_of_fmap in Hr. destruct Hr as [st [-> Hst]].
    apply list_elem_of_fmap in Hst. destruct Hst as [station [-> Hstation]].
    simpl. apply Hunknown, Hstation.
Qed.

End UnknownStation.

Lemma Sample_rows_with_X_valid :
  Forall (validRow Sample.parse) (Sample.rowX :: Sample.rows).
Proof. repeat constructor; vm_compute; discriminate. Defined.

Lemma C7_unknown_station_witness :
  Forall (validRow Sample.parse) (Sample.rowX :: Sample.rows)
  /\ departuresByMinute Sample.registry = emptyBuckets
  /\ arrivalsByMinute Sample.registry = emptyBuckets
  /\ (forall station : @Station Z,
        station ∈ stations Sample.registry -> id station <> "X")
  /\ toTrip Sample.parse Sample.rowX
       ∈ map (toTrip Sample.parse) (Sample.rowX :: Sample.rows)
  /\ departures (Sample.loaded (Sample.rowX :: Sample.rows)) !! "X"
     = Some (countKey start_station_id "X"
               (trips (Sample.loaded (Sample.rowX :: Sample.rows))))
  /\ forall (m : Z) r,
       r ∈ filteredStations
             (set_timeFilter m (Sample.loaded (Sample.rowX :: Sample.rows))) ->
       id r <> "X".
Proof.
  pose proof (C7_unknown_station_counted_not_shown Sample.tz Sample.parse
                (Sample.rowX :: Sample.rows) Sample.registry
                (toTrip Sample.parse Sample.rowX) "X"
                Sample_rows_with_X_valid eq_refl eq_refl
                Sample_X_unknown ltac:(left))
    as (_ & Hdep & _ & _ & Hview).
  split; [exact Sample_rows_with_X_valid |]. split; [reflexivity |].
  split; [reflexivity |]. split; [exact Sample_X_unknown |].
  split; [left |]. split; [exact (proj1 (Hdep eq_refl)) | exact Hview].
Defined.

(** The unknown station X of the sample: one departure in the map, and
    none of the two records of the view is X's. *)
Example unknown_station_sample :
  departures (Sample.loaded (Sample.rowX :: Sample.rows)) !! "X" = Some 1
  /\ map id (filteredStations (Sample.loaded (Sample.rowX :: Sample.rows)))
     = ["A"; "B"].
Proof. split; vm_compute; reflexivity. Qed.
